(** * IndexingProgressBar: the indexing status indicator of the GUI

    A shallow embedding of
    [gui/src/components/loaders/IndexingProgressBar.tsx] and of the part of
    the React runtime the component relies on (state hooks, effects with
    dependency arrays, bubbling of click events), followed by the properties
    of the component.

    Layout of the file:
    - [JsNumber]: JavaScript numbers (IEEE 754 binary64), the comparison
      operators, [Math.min], [Math.max], [Math.trunc], [Number::toString];
    - [Model]: the data the component works on, the component itself
      (display selection, [onClick], [getIndexingErrMsg], the two effects,
      the rendered tree) and the runtime that drives it;
    - [Spec]: the wording of the specification, for comparison;
    - [Sample]: concrete values for the examples;
    - [NumberFacts], [RuntimeFacts]: lemmas;
    - the properties of the component, one theorem per claim. *)

From Stdlib Require Import ZArith List String Ascii Bool Lia.
From Stdlib Require Import DecimalString.
From Stdlib Require Import Floats.SpecFloat.
Import ListNotations.

Local Open Scope string_scope.
Local Open Scope Z_scope.

(* ================================================================= *)
(** ** JavaScript numbers *)

Module JsNumber.

(** A JavaScript number is an IEEE 754 binary64 value: 53 bits of
    precision, infinities at exponent 1024.  [spec_float] is the standard
    library's executable specification of these values. *)
Definition number : Type := spec_float.

Definition prec : Z := 53.
Definition emax : Z := 1024.

Definition NaN : number := S754_nan.
Definition pos_zero : number := S754_zero false.
Definition neg_zero : number := S754_zero true.
Definition Infinity : number := S754_infinity false.
Definition neg_Infinity : number := S754_infinity true.

(** The number denoted by an integer literal: the nearest binary64 value. *)
Definition of_Z (z : Z) : number := binary_normalize prec emax z 0 false.

(** The number denoted by a decimal literal whose exact value is the
    fraction [p / q] (for instance [0.5] is [of_ratio 5 10]): the nearest
    binary64 value, ties to even. *)
Definition of_ratio (p : Z) (q : positive) : number :=
  match p with
  | Z0 => pos_zero
  | Zpos a => SFdiv prec emax (S754_finite false a 0) (S754_finite false q 0)
  | Zneg a => SFdiv prec emax (S754_finite true a 0) (S754_finite false q 0)
  end.

(** [x * y]. *)
Definition mul (x y : number) : number := SFmul prec emax x y.

(** [x - y]. *)
Definition sub (x y : number) : number := SFsub prec emax x y.

(** [x < y] and [x >= y]; both are false as soon as an operand is NaN. *)
Definition lt (x y : number) : bool := SFltb x y.
Definition ge (x y : number) : bool := SFleb y x.

(** IEEE equality ([+0] and [-0] are equal, NaN equals nothing). *)
Definition eqb (x y : number) : bool := SFeqb x y.

Definition is_nan (x : number) : bool :=
  match x with S754_nan => true | _ => false end.

(** Structural equality of two values (the same number, [+0] and [-0]
    told apart). *)
Definition same (x y : number) : bool :=
  match x, y with
  | S754_zero a, S754_zero b => Bool.eqb a b
  | S754_infinity a, S754_infinity b => Bool.eqb a b
  | S754_nan, S754_nan => true
  | S754_finite a m e, S754_finite b n f =>
      Bool.eqb a b && Pos.eqb m n && Z.eqb e f
  | _, _ => false
  end.

(** *** Math.max and Math.min

    ECMAScript: if any argument is NaN the result is NaN; otherwise the
    arguments are folded from [-Infinity] (resp. [+Infinity]), [+0] counting
    as larger than [-0]. *)
Definition max_step (highest x : number) : number :=
  match x, highest with
  | S754_zero false, S754_zero true => x
  | _, _ => if lt highest x then x else highest
  end.

Definition min_step (lowest x : number) : number :=
  match x, lowest with
  | S754_zero true, S754_zero false => x
  | _, _ => if lt x lowest then x else lowest
  end.

Definition Math_max (args : list number) : number :=
  if existsb is_nan args then NaN else fold_left max_step args neg_Infinity.

Definition Math_min (args : list number) : number :=
  if existsb is_nan args then NaN else fold_left min_step args Infinity.

(** *** Math.trunc

    The integral part of the number, the fractional digits removed; NaN,
    the infinities and the zeros are returned unchanged, and a value
    strictly between -1 and 1 gives the zero of its sign. *)
Definition Math_trunc (x : number) : number :=
  match x with
  | S754_finite s m e =>
      if 0 <=? e then x
      else match Z.shiftr (Zpos m) (- e) with
           | Z0 => S754_zero s
           | q => binary_normalize prec emax (cond_Zopp s q) 0 s
           end
  | _ => x
  end.

(** The mantissa and exponent of the binary64 value of a positive integer
    of at most 53 bits. *)
Definition aligned (q : positive) : positive * Z :=
  shl_align q 0 (Zpos (digits2_pos q) - 53).

(** The exact value of a finite number as a fraction: numerator and
    (positive) denominator. *)
Definition exact (x : number) : option (Z * Z) :=
  match x with
  | S754_zero _ => Some (0, 1)
  | S754_finite s m e =>
      Some (if 0 <=? e then (cond_Zopp s (Zpos m * 2 ^ e), 1)
            else (cond_Zopp s (Zpos m), 2 ^ (- e)))
  | _ => None
  end.

(** The integer a number is, when it is one. *)
Definition to_Z (x : number) : option Z :=
  match x with
  | S754_zero _ => Some 0
  | S754_finite s m e =>
      if 0 <=? e then Some (cond_Zopp s (Zpos m * 2 ^ e))
      else if Zpos m mod 2 ^ (- e) =? 0
           then Some (cond_Zopp s (Zpos m / 2 ^ (- e)))
           else None
  | _ => None
  end.

(** *** Number::toString (radix 10)

    ECMAScript prints a finite non-zero number from the integers [n], [k]
    and [s] such that [k >= 1], [10^(k-1) <= s < 10^k], the number nearest
    to [s * 10^(n-k)] is the number printed, and [k] is as small as
    possible; of several such [s] the one nearest to the exact value is
    taken, the even one on a tie. *)

Definition digits (z : Z) : string :=
  NilZero.string_of_uint (N.to_uint (Z.to_N z)).

Definition zeros (n : Z) : string :=
  string_of_list_ascii (repeat "0"%char (Z.to_nat n)).

Definition strlen (s : string) : Z := Z.of_nat (String.length s).

(** The binary64 value nearest to the positive fraction [p / q]. *)
Definition nearest (p q : Z) : number :=
  match p, q with
  | Zpos a, Zpos b =>
      SFdiv prec emax (S754_finite false a 0) (S754_finite false b 0)
  | _, _ => pos_zero
  end.

(** [a / b * 10^j] as a fraction, for positive [a] and [b]. *)
Definition scale10 (a b j : Z) : Z * Z :=
  if 0 <=? j then (a * 10 ^ j, b) else (a, b * 10 ^ (- j)).

(** The [n] with [10^(n-1) <= a / b < 10^n], for positive [a] and [b]. *)
Definition decimal_order (a b : Z) : Z :=
  let n0 := strlen (digits a) - strlen (digits b) in
  let '(p, q) := scale10 a b (- n0) in
  if q <=? p then n0 + 1 else n0.

(** The candidates with [k] digits for the value [a / b] of order [n]:
    the two integers around [a / b * 10^(k-n)], the upper one carried to
    the next order when it reaches [10^k]. *)
Definition candidates (a b n k : Z) : (Z * Z) * (Z * Z) :=
  let '(p, q) := scale10 a b (k - n) in
  let lo := p / q in
  let hi := lo + 1 in
  ((n, lo), if hi =? 10 ^ k then (n + 1, 10 ^ (k - 1)) else (n, hi)).

Definition prints_as (x : number) (k : Z) (c : Z * Z) : bool :=
  let '(n, s) := c in
  let '(p, q) := scale10 s 1 (n - k) in
  (10 ^ (k - 1) <=? s) && same (nearest p q) x.

(** Of the two candidates, the one to print with [k] digits, if any. *)
Definition choose (x : number) (a b n k : Z) : option (Z * Z) :=
  let '(lo, hi) := candidates a b n k in
  match prints_as x k lo, prints_as x k hi with
  | true, false => Some lo
  | false, true => Some hi
  | false, false => None
  | true, true =>
      let '(p, q) := scale10 a b (k - n) in
      match 2 * p ?= (2 * snd lo + 1) * q with
      | Lt => Some lo
      | Gt => Some hi
      | Eq => Some (if Z.even (snd lo) then lo else hi)
      end
  end.

(** The shortest digits: [k] runs from [k] upwards, [fuel] candidates
    long; seventeen digits always tell a binary64 value apart. *)
Fixpoint shortest (fuel : nat) (x : number) (a b n k : Z) : Z * Z * Z :=
  match fuel with
  | O => (fst (candidates a b n k), k)
  | S fuel' =>
      match choose x a b n k with
      | Some c => (c, k)
      | None => shortest fuel' x a b n (k + 1)
      end
  end.

Definition substr (from len : Z) (s : string) : string :=
  String.substring (Z.to_nat from) (Z.to_nat len) s.

Definition layout (n k s : Z) : string :=
  let ds := digits s in
  if (k <=? n) && (n <=? 21) then ds ++ zeros (n - k)
  else if (0 <? n) && (n <=? 21) then
    substr 0 n ds ++ "." ++ substr n (k - n) ds
  else if (-6 <? n) && (n <=? 0) then "0." ++ zeros (- n) ++ ds
  else
    let e := n - 1 in
    let sign := if e <? 0 then "-" else "+" in
    if k =? 1 then ds ++ "e" ++ sign ++ digits (Z.abs e)
    else substr 0 1 ds ++ "." ++ substr 1 (k - 1) ds
         ++ "e" ++ sign ++ digits (Z.abs e).

Definition toString_pos (m : positive) (e : Z) : string :=
  let '(a, b) := scale10 (Zpos m * 2 ^ Z.max e 0) (2 ^ Z.max (- e) 0) 0 in
  let n := decimal_order a b in
  let '(n', s, k) := shortest 17 (S754_finite false m e) a b n 1 in
  layout n' k s.

Definition toString (x : number) : string :=
  match x with
  | S754_nan => "NaN"
  | S754_zero _ => "0"
  | S754_infinity false => "Infinity"
  | S754_infinity true => "-Infinity"
  | S754_finite false m e => toString_pos m e
  | S754_finite true m e => "-" ++ toString_pos m e
  end.

End JsNumber.

(* ================================================================= *)
(** ** The component *)

Module Model.
Import JsNumber.

(** [a === b] on strings. *)
Notation "a === b" := (String.eqb a b) (at level 70, no associativity).

(** *** Data *)

(** Modelled from the spec: the type [IndexingProgressUpdate] is declared
    in [core], outside this file.  Its fields are those of the spec's
    ProgressUpdate; [status] is kept as the string the component compares
    it with, and the optional [shouldClearIndexes] is absent as [None]. *)
Record IndexingProgressUpdate : Type := {
  progress : number;
  desc : string;
  shouldClearIndexes : option bool;
  status : string
}.

(** What is passed to [ideMessenger.post] next to the message name:
    [undefined], a boolean, or the object [{ shouldClearIndexes: b }]. *)
Inductive Payload : Type :=
| Undefined
| Boolean (b : bool)
| ClearIndexes (shouldClearIndexes : bool).

Record Message : Type := { action : string; payload : Payload }.

(** What a click handler, a dialog callback or an effect does, one
    constructor per call the component makes:
    [ideMessenger.post], the state setters [setPaused] (with an updater)
    and [setHovered], [dispatch(setShowDialog ..)],
    [dispatch(setDialogMessage(<ConfirmationDialog .. />))] and
    [posthog.capture]. *)
#[local] Unset Elimination Schemes.
Inductive Cmd : Type :=
| Post (action : string) (payload : Payload)
| SetPaused (updater : option bool -> option bool)
| SetHovered (b : bool)
| SetShowDialog (b : bool)
| SetDialogMessage (title confirmText text : string) (onConfirm : list Cmd)
| Capture (event : string).
#[local] Set Elimination Schemes.

Abbreviation Handler := (list Cmd).

(** The props of the [ConfirmationDialog] element held by the UI store. *)
Record Dialog : Type := {
  title : string;
  confirmText : string;
  text : string;
  onConfirm : Handler
}.

(** The values the component reads from its surroundings: [isJetBrains()]
    and [getFontSize()] of [util], the [embeddingsProvider] of the store
    configuration, the constant [TransformersJsEmbeddingsProvider.model],
    whether [document.getElementById("tooltip-portal-div")] finds the
    element, and the colour [lightGray]. *)
Record Env : Type := {
  isJetBrains : bool;
  getFontSize : number;
  embeddingsProvider : option string;
  TransformersJsEmbeddingsProvider_model : string;
  tooltipPortalDiv : bool;
  lightGray : string
}.

(** Truthiness of a [boolean | undefined]. *)
Definition truthy (b : option bool) : bool :=
  match b with Some true => true | _ => false end.

(** [(prev) => !prev]. *)
Definition not_prev (prev : option bool) : option bool :=
  Some (negb (truthy prev)).

Module STATUS_COLORS.
Definition DISABLED (env : Env) : string := lightGray env.
Definition LOADING : string := "#00B8D9".
Definition INDEXING : string := "#6554C0".
Definition PAUSED : string := "#FFAB00".
Definition DONE : string := "#36B37E".
Definition FAILED : string := "#FF5630".
End STATUS_COLORS.

Definition defaultIndexingState : IndexingProgressUpdate :=
  {| status := "loading"; progress := pos_zero; desc := "";
     shouldClearIndexes := None |}.

(** [indexingStateProp || defaultIndexingState]. *)
Definition indexingState_of (indexingStateProp : option IndexingProgressUpdate)
  : IndexingProgressUpdate :=
  match indexingStateProp with
  | Some u => u
  | None => defaultIndexingState
  end.

Definition fillPercentage (indexingState : IndexingProgressUpdate) : number :=
  Math_min [of_Z 100;
            Math_max [pos_zero; mul (progress indexingState) (of_Z 100)]].

(** *** The two effects *)

(** The body of the first effect, over the render-local variable
    [initialized]: the commands and the variable afterwards. *)
Definition initializedEffect (initialized : bool) : Handler * bool :=
  if negb initialized
  then ([Post "index/indexingProgressBarInitialized" Undefined], true)
  else ([], initialized).

(** The body of the second effect. *)
Definition pausedEffect (paused : option bool) : Handler :=
  match paused with
  | None => []
  | Some b => [Post "index/setPaused" (Boolean b)]
  end.

(** *** onClick *)

Definition rebuildText : string :=
  "Your index appears corrupted. We recommend clearing and rebuilding it, "
  ++ "which may take time for large codebases." ++ String "010" (String "010"
  ("For a faster rebuild without clearing data, press 'Shift + Command + P' to open "
  ++ "the Command Palette, and type out 'Continue: Force Codebase Re-Indexing'")).

Definition rebuildOnConfirm : Handler :=
  [Capture "rebuild_index_clicked";
   Post "index/forceReIndex" (ClearIndexes true)].

Definition onClick (env : Env) (indexingState : IndexingProgressUpdate)
  : Handler :=
  if status indexingState === "failed" then
    if truthy (shouldClearIndexes indexingState) && negb (isJetBrains env)
    then [SetShowDialog true;
          SetDialogMessage "Rebuild codebase index" "Rebuild" rebuildText
                           rebuildOnConfirm]
    else [Post "index/forceReIndex" Undefined]
  else if (status indexingState === "indexing")
          || (status indexingState === "paused") then
    if lt (progress indexingState) (of_Z 1)
       && ge (progress indexingState) pos_zero
    then [SetPaused not_prev]
    else [Post "index/forceReIndex" Undefined]
  else [Post "index/forceReIndex" Undefined].

Definition getIndexingErrMsg (env : Env) (msg : string) : string :=
  if isJetBrains env
     && match embeddingsProvider env with
        | Some p => p === TransformersJsEmbeddingsProvider_model env
        | None => false
        end
  then "The 'transformers.js' embeddingsProvider is currently unsupported in JetBrains. "
       ++ "To enable codebase indexing, you can use any of the other providers described "
       ++ "in the docs: https://docs.continue.dev/walkthroughs/codebase-embeddings#embeddings-providers"
  else msg.

(** *** The display *)

(** Which branch of the conditional chain of the returned markup is
    taken. *)
Inductive DisplayState : Type :=
| Failed | Loading | Done | Disabled | Paused | Indexing | Nothing.

Definition displayState (indexingState : IndexingProgressUpdate)
                        (paused : option bool) : DisplayState :=
  if status indexingState === "failed" then Failed
  else if status indexingState === "loading" then Loading
  else if status indexingState === "done" then Done
  else if status indexingState === "disabled" then Disabled
  else if (status indexingState === "paused")
          || (truthy paused && (status indexingState === "indexing"))
       then Paused
  else if status indexingState === "indexing" then Indexing
  else Nothing.

(** The markup: elements with their attributes and children, text,
    numbers, portals, and [null].  [FlexDiv], [StatusHeading],
    [StatusInfo], [ProgressBarWrapper] and [ProgressBarFill] are the styled
    [div]s of this file.

    Modelled from the spec: [StatusDot] (in [./StatusDot], outside this
    file) is the "dedicated sub-element" of the displays, the dot that
    shows the status.  The tree holds the props the component passes to it
    (a colour, a blink flag and, in the Paused display, a click handler);
    what a click on it does is [dotClick] below. *)
Inductive Tag : Type :=
| div | br | FlexDiv | StatusDot | StatusHeading | StatusInfo
| ProgressBarWrapper | ProgressBarFill | StyledTooltip.

Inductive Attr : Type :=
| OnClick (h : Handler)
| OnMouseEnter (h : Handler)
| OnMouseLeave (h : Handler)
| ClassName (s : string)
| DataTooltipId (s : string)
| Id (s : string)
| Place (s : string)
| Color (s : string)
| ShouldBlink
| Completed (x : number)
| StyleFontSize (s : string).

#[local] Unset Elimination Schemes.
Inductive Node : Type :=
| Element (tag : Tag) (attrs : list Attr) (children : list Node)
| Text (s : string)
| Num (x : number)
| Portal (child : Node)
| Null.
#[local] Set Elimination Schemes.

(** [tooltipPortalDiv && ReactDOM.createPortal(<StyledTooltip ..>, ..)]. *)
Definition tooltip (env : Env) (id : string) (children : list Node) : Node :=
  if tooltipPortalDiv env
  then Portal (Element StyledTooltip [Id id; Place "top"] children)
  else Null.

Definition percent (indexingState : IndexingProgressUpdate) : number :=
  Math_trunc (mul (progress indexingState) (of_Z 100)).

Definition branch (env : Env) (indexingState : IndexingProgressUpdate)
                  (paused : option bool) (hovered : bool) : Node :=
  match displayState indexingState paused with
  | Failed =>
      Element FlexDiv [DataTooltipId "indexingFailed_dot"]
        [Element StatusDot [Color STATUS_COLORS.FAILED] [];
         Element div []
           [Element StatusHeading [] [Text "Indexing error - click to retry"]];
         tooltip env "indexingFailed_dot"
           [Text (getIndexingErrMsg env (desc indexingState))]]
  | Loading =>
      Element FlexDiv []
        [Element StatusDot [ShouldBlink; Color STATUS_COLORS.LOADING] [];
         Element StatusHeading [] [Text "Initializing"]]
  | Done =>
      Element FlexDiv [DataTooltipId "indexingDone_dot"]
        [Element StatusDot [Color STATUS_COLORS.DONE] [];
         Element div [] [Element StatusHeading [] [Text "Index up to date"]];
         tooltip env "indexingDone_dot"
           [Text "Index up to date"; Element br [] [];
            Text "Click to force re-indexing"]]
  | Disabled =>
      Element FlexDiv [DataTooltipId "indexingDisabled_dot"]
        [Element StatusDot [Color (STATUS_COLORS.DISABLED env)] [];
         tooltip env "indexingDisabled_dot" [Text (desc indexingState)]]
  | Paused =>
      Element FlexDiv []
        [Element StatusDot
           [Color STATUS_COLORS.PAUSED;
            OnClick [Post "index/setPaused" (Boolean false)]] [];
         Element StatusHeading []
           [Text "Indexing paused ("; Num (percent indexingState); Text "%)"]]
  | Indexing =>
      Element FlexDiv
        [OnMouseEnter [SetHovered true];
         OnMouseLeave [SetHovered false];
         OnClick [Post "index/setPaused" (Boolean true)]]
        [Element StatusDot [ShouldBlink; Color STATUS_COLORS.INDEXING] [];
         Element div []
           [Element FlexDiv []
              [Element ProgressBarWrapper []
                 [Element ProgressBarFill
                    [Completed (fillPercentage indexingState)] []];
               Element StatusHeading
                 [StyleFontSize
                    (toString (sub (getFontSize env) (of_Z 3)) ++ "px")]
                 [Text (toString (percent indexingState) ++ "%")]];
            Element StatusInfo []
              [Text (if hovered then "Click to pause"
                     else desc indexingState)]]]
  | Nothing => Null
  end.

(** What the component returns. *)
Definition render (env : Env) (indexingState : IndexingProgressUpdate)
                  (paused : option bool) (hovered : bool) : Node :=
  Element div [OnClick (onClick env indexingState); ClassName "cursor-pointer"]
    [branch env indexingState paused hovered].

(** The text a node shows: its text children and its number children,
    printed, in order. *)
Fixpoint textContent (n : Node) : string :=
  match n with
  | Element _ _ children => String.concat "" (map textContent children)
  | Text s => s
  | Num x => toString x
  | Portal child => textContent child
  | Null => ""
  end.

(** *** The runtime

    The state the hooks keep between renders ([paused], [hovered]), the
    prop the parent passes, the part of the UI store the component writes
    to, and the events recorded by the analytics client. *)
Local Open Scope list_scope.

Record World : Type := {
  indexingStateProp : option IndexingProgressUpdate;
  paused : option bool;
  hovered : bool;
  showDialog : bool;
  dialogMessage : option Dialog;
  captured : list string
}.

Definition exec1 (c : Cmd) (w : World) : World * list Message :=
  match c with
  | Post a p => (w, [{| action := a; payload := p |}])
  | SetPaused updater =>
      ({| indexingStateProp := indexingStateProp w;
          paused := updater (paused w); hovered := hovered w;
          showDialog := showDialog w; dialogMessage := dialogMessage w;
          captured := captured w |}, [])
  | SetHovered b =>
      ({| indexingStateProp := indexingStateProp w;
          paused := paused w; hovered := b;
          showDialog := showDialog w; dialogMessage := dialogMessage w;
          captured := captured w |}, [])
  | SetShowDialog b =>
      ({| indexingStateProp := indexingStateProp w;
          paused := paused w; hovered := hovered w;
          showDialog := b; dialogMessage := dialogMessage w;
          captured := captured w |}, [])
  | SetDialogMessage t c b k =>
      ({| indexingStateProp := indexingStateProp w;
          paused := paused w; hovered := hovered w;
          showDialog := showDialog w;
          dialogMessage :=
            Some {| title := t; confirmText := c; text := b; onConfirm := k |};
          captured := captured w |}, [])
  | Capture e =>
      ({| indexingStateProp := indexingStateProp w;
          paused := paused w; hovered := hovered w;
          showDialog := showDialog w; dialogMessage := dialogMessage w;
          captured := captured w ++ [e] |}, [])
  end.

(** Run the commands of a handler in order; the messages posted to the
    host, in order. *)
Fixpoint exec (h : Handler) (w : World) : World * list Message :=
  match h with
  | [] => (w, [])
  | c :: rest =>
      let '(w1, out1) := exec1 c w in
      let '(w2, out2) := exec rest w1 in
      (w2, out1 ++ out2)
  end.

(** The effects a render declares, each with its dependency array.  The
    variable [initialized] is local to the render: every render starts it
    at [false]. *)
Inductive Dep : Type := DepPaused (p : option bool).

Record EffectDecl : Type := { deps : list Dep; effect : Handler }.

Definition useEffects (paused : option bool) : list EffectDecl :=
  let initialized := false in
  [ {| deps := []; effect := fst (initializedEffect initialized) |};
    {| deps := [DepPaused paused]; effect := pausedEffect paused |} ].

(** [Object.is] on the values a dependency array holds here. *)
Definition dep_is (a b : Dep) : bool :=
  match a, b with
  | DepPaused None, DepPaused None => true
  | DepPaused (Some x), DepPaused (Some y) => Bool.eqb x y
  | _, _ => false
  end.

Fixpoint same_deps (a b : list Dep) : bool :=
  match a, b with
  | [], [] => true
  | x :: a', y :: b' => dep_is x y && same_deps a' b'
  | _, _ => false
  end.

(** After the first render every effect runs; after a later render the
    effects run whose dependencies differ from those of the render
    before. *)
Definition mountEffects (decls : list EffectDecl) : Handler :=
  List.concat (map effect decls).

Definition updateEffects (prev next : list EffectDecl) : Handler :=
  List.concat (map (fun pn => if same_deps (deps (fst pn)) (deps (snd pn))
                         then [] else effect (snd pn))
              (combine prev next)).

(** Handlers of one kind on the way from the root to the node at [path]
    (child indices), root first.  A path that leaves the tree stops at the
    last element it reaches; text is part of the element that holds it,
    and so is a [StatusDot], whose inside is not of this file: its props
    are no handlers of the row's own elements. *)
Definition opaque (tag : Tag) : bool :=
  match tag with StatusDot => true | _ => false end.

Definition handlerOf (sel : Attr -> option Handler) (attrs : list Attr)
  : Handler :=
  match List.find (fun a => match sel a with Some _ => true | None => false end)
                  attrs with
  | Some a => match sel a with Some h => h | None => [] end
  | None => []
  end.

Fixpoint along (sel : Attr -> option Handler) (path : list nat) (n : Node)
  : list Handler :=
  match n with
  | Element tag attrs children =>
      if opaque tag then []
      else
        handlerOf sel attrs ::
        match path with
        | [] => []
        | i :: rest =>
            match nth_error children i with
            | Some c => along sel rest c
            | None => []
            end
        end
  | Portal child =>
      match path with
      | O :: rest => along sel rest child
      | _ => []
      end
  | Text _ | Num _ | Null => []
  end.

Definition onClickOf (a : Attr) : option Handler :=
  match a with OnClick h => Some h | _ => None end.
Definition onMouseEnterOf (a : Attr) : option Handler :=
  match a with OnMouseEnter h => Some h | _ => None end.
Definition onMouseLeaveOf (a : Attr) : option Handler :=
  match a with OnMouseLeave h => Some h | _ => None end.

(** A click on an element of this file bubbles: the handler of the
    element clicked runs first, then those of its ancestors, up to the
    root.  No handler of the component stops the propagation. *)
Definition clickCmds (path : list nat) (tree : Node) : Handler :=
  List.concat (rev (along onClickOf path tree)).

Definition view (env : Env) (w : World) : Node :=
  render env (indexingState_of (indexingStateProp w)) (paused w) (hovered w).

Inductive Event : Type :=
| Click (path : list nat)         (* a click on the node at [path] *)
| MouseEnter (path : list nat)    (* the pointer comes from outside *)
| MouseLeave (path : list nat)    (* the pointer leaves to the outside *)
| Render (indexingState : option IndexingProgressUpdate)
                                  (* the parent renders the component *)
| Confirm                         (* the dialog's confirm button *)
| Dismiss.                        (* the dialog is closed otherwise *)

Definition closeDialog (w : World) : World :=
  {| indexingStateProp := indexingStateProp w;
     paused := paused w; hovered := hovered w;
     showDialog := false; dialogMessage := None;
     captured := captured w |}.

Definition withProp (u : option IndexingProgressUpdate) (w : World) : World :=
  {| indexingStateProp := u;
     paused := paused w; hovered := hovered w;
     showDialog := showDialog w; dialogMessage := dialogMessage w;
     captured := captured w |}.

(** Modelled from the spec: [ConfirmationDialog] (in
    [../dialogs/ConfirmationDialog], outside this file) is the
    confirmation-dialog service, which takes a title, a body text, a
    confirm label and a confirm callback: confirming runs the callback and
    closes the dialog, dismissing only closes it. *)
Definition dialogEvent (confirm : bool) (w : World) : World * list Message :=
  match showDialog w, dialogMessage w with
  | true, Some d =>
      if confirm
      then let '(w1, out) := exec (onConfirm d) w in (closeDialog w1, out)
      else (closeDialog w, [])
  | _, _ => (w, [])
  end.

(** The handlers an event runs. *)
Definition handle (env : Env) (w : World) (e : Event) : World * list Message :=
  match e with
  | Click path => exec (clickCmds path (view env w)) w
  | MouseEnter path =>
      exec (List.concat (along onMouseEnterOf path (view env w))) w
  | MouseLeave path =>
      exec (List.concat (rev (along onMouseLeaveOf path (view env w)))) w
  | Render u => (withProp u w, [])
  | Confirm => dialogEvent true w
  | Dismiss => dialogEvent false w
  end.

(** One event: its handlers, then the render they cause and the effects
    of that render. *)
Definition step (env : Env) (w : World) (e : Event) : World * list Message :=
  let '(w1, out1) := handle env w e in
  let '(w2, out2) :=
    exec (updateEffects (useEffects (paused w)) (useEffects (paused w1))) w1 in
  (w2, out1 ++ out2).

Fixpoint run (env : Env) (w : World) (events : list Event)
  : World * list Message :=
  match events with
  | [] => (w, [])
  | e :: rest =>
      let '(w1, out1) := step env w e in
      let '(w2, out2) := run env w1 rest in
      (w2, out1 ++ out2)
  end.

(** Mounting: the state hooks start at [undefined] and [false], and every
    effect of the first render runs. *)
Definition initial (u : option IndexingProgressUpdate) : World :=
  {| indexingStateProp := u; paused := None; hovered := false;
     showDialog := false; dialogMessage := None; captured := [] |}.

Definition mount (u : option IndexingProgressUpdate) : World * list Message :=
  exec (mountEffects (useEffects (paused (initial u)))) (initial u).

(** A mount followed by events: the final state and everything posted to
    the host. *)
Definition lifetime (env : Env) (u : option IndexingProgressUpdate)
                    (events : list Event) : World * list Message :=
  let '(w0, out0) := mount u in
  let '(w, out) := run env w0 events in
  (w, out0 ++ out).

(** *** What a rendered tree shows *)

Definition tag_eqb (a b : Tag) : bool :=
  match a, b with
  | div, div | br, br | FlexDiv, FlexDiv | StatusDot, StatusDot
  | StatusHeading, StatusHeading | StatusInfo, StatusInfo
  | ProgressBarWrapper, ProgressBarWrapper
  | ProgressBarFill, ProgressBarFill | StyledTooltip, StyledTooltip => true
  | _, _ => false
  end.

(** The first element with a given tag, in document order. *)
Fixpoint findTag (t : Tag) (n : Node) : option Node :=
  match n with
  | Element t' _ children =>
      if tag_eqb t t' then Some n
      else (fix first (l : list Node) : option Node :=
              match l with
              | [] => None
              | c :: l' =>
                  match findTag t c with
                  | Some r => Some r
                  | None => first l'
                  end
              end) children
  | Portal child => findTag t child
  | Text _ | Num _ | Null => None
  end.

Definition textOf (t : Tag) (tree : Node) : option string :=
  option_map textContent (findTag t tree).

(** The heading, the line under the progress bar, the tooltip, and the
    width of the progress bar's fill, where the tree has them. *)
Definition heading : Node -> option string := textOf StatusHeading.
Definition info : Node -> option string := textOf StatusInfo.
Definition tooltipText : Node -> option string := textOf StyledTooltip.

Definition completed (tree : Node) : option number :=
  match findTag ProgressBarFill tree with
  | Some (Element _ (Completed x :: _) _) => Some x
  | _ => None
  end.

(** *** A click on the status dot *)

(** The click handler passed to the status dot of a tree, if any. *)
Definition dotHandler (tree : Node) : option Handler :=
  match findTag StatusDot tree with
  | Some (Element _ attrs _) =>
      match List.find (fun a => match onClickOf a with
                                | Some _ => true
                                | None => false
                                end) attrs with
      | Some a => onClickOf a
      | None => None
      end
  | _ => None
  end.

(** Modelled from the spec: [StatusDot] is outside this file, and the spec
    says of the dot of the Paused display that "a dedicated sub-element
    click (separate from the whole-row click) always sends
    [setPaused(false)] directly, bypassing PauseIntent toggling": a click
    on a dot that was given a handler runs that handler and is no click on
    the row; the render and its effects follow as after any event.  A dot
    without a handler is part of the box that holds it. *)
Definition dotClick (env : Env) (w : World) : World * list Message :=
  match dotHandler (view env w) with
  | Some h =>
      let '(w1, out1) := exec h w in
      let '(w2, out2) :=
        exec (updateEffects (useEffects (paused w)) (useEffects (paused w1)))
             w1 in
      (w2, out1 ++ out2)
  | None => step env w (Click [O])
  end.

(** Every attribute that occurs in a tree. *)
Fixpoint attrsIn (n : Node) : list Attr :=
  match n with
  | Element _ attrs children => attrs ++ flat_map attrsIn children
  | Portal child => attrsIn child
  | Text _ | Num _ | Null => []
  end.

(** The click handlers below the row that a click at [path] reaches in
    each display: the box of the Indexing display with everything in
    it. *)
Definition subClick (ds : DisplayState) (path : list nat) : Handler :=
  match ds, path with
  | Indexing, O :: _ => [Post "index/setPaused" (Boolean true)]
  | _, _ => []
  end.

(** *** Reading a trace of messages *)

(** The messages a handler posts, whatever the state it runs in. *)
Definition posts (h : Handler) : list Message :=
  flat_map (fun c => match c with
                     | Post a p => [{| action := a; payload := p |}]
                     | _ => []
                     end) h.

Definition named (a : string) (m : Message) : bool := action m === a.

(** The messages of a trace that carry a given name. *)
Definition sent (a : string) (out : list Message) : list Message :=
  filter (named a) out.

Definition isClick (e : Event) : bool :=
  match e with Click _ => true | _ => false end.

(** The dialog the Failed display opens. *)
Definition rebuildDialog : Dialog :=
  {| title := "Rebuild codebase index"; confirmText := "Rebuild";
     text := rebuildText; onConfirm := rebuildOnConfirm |}.

(** *** Reading the state *)

(** The update the component works with, and the display it shows. *)
Definition current (w : World) : IndexingProgressUpdate :=
  indexingState_of (indexingStateProp w).

Definition shown (w : World) : DisplayState :=
  displayState (current w) (paused w).

Definition withPaused (p : option bool) (w : World) : World :=
  {| indexingStateProp := indexingStateProp w;
     paused := p; hovered := hovered w;
     showDialog := showDialog w; dialogMessage := dialogMessage w;
     captured := captured w |}.

Definition withDialog (d : Dialog) (w : World) : World :=
  {| indexingStateProp := indexingStateProp w;
     paused := paused w; hovered := hovered w;
     showDialog := true; dialogMessage := Some d;
     captured := captured w |}.

(** The dialog in the store, if any, is the one this component opened. *)
Definition quiet_dialog (w : World) : Prop :=
  match dialogMessage w with
  | Some d => onConfirm d = rebuildOnConfirm
  | None => True
  end.

(** Handlers that only set [hovered], and attributes whose mouse handlers
    are of that kind. *)
Definition hoverOnly (h : Handler) : bool :=
  forallb (fun c => match c with SetHovered _ => true | _ => false end) h.

Definition hoverAttr (a : Attr) : bool :=
  match a with
  | OnMouseEnter k | OnMouseLeave k => hoverOnly k
  | _ => true
  end.

Definition initMessage : Message :=
  {| action := "index/indexingProgressBarInitialized"; payload := Undefined |}.

(** The condition under which [getIndexingErrMsg] replaces the message. *)
Definition unsupportedProvider (env : Env) : bool :=
  isJetBrains env
  && match embeddingsProvider env with
     | Some p => p === TransformersJsEmbeddingsProvider_model env
     | None => false
     end.

End Model.

(* ================================================================= *)
(** ** The specification's wording

    Definitions that follow the prose of the specification, for comparison
    with the definitions above. *)

Module Spec.
Import JsNumber Model.

(** "min(100, max(0, x))" on the ordered values: above 100 it is 100,
    between 0 and 100 it is [x], at or below 0 it is 0.  NaN has no place
    in the order and stays NaN. *)
Definition clamp_0_100 (x : number) : number :=
  if is_nan x then NaN
  else if lt (of_Z 100) x then of_Z 100
  else if lt pos_zero x then x
  else pos_zero.

(** "States and precedence (first match wins, evaluated in this literal
    order)": failed, loading, done, disabled, paused, indexing. *)
Definition rules : list ((IndexingProgressUpdate -> option bool -> bool)
                         * DisplayState) :=
  [ (fun u _ => status u === "failed", Failed);
    (fun u _ => status u === "loading", Loading);
    (fun u _ => status u === "done", Done);
    (fun u _ => status u === "disabled", Disabled);
    (fun u p => (status u === "paused")
                || (truthy p && (status u === "indexing")), Paused);
    (fun u _ => status u === "indexing", Indexing) ].

Fixpoint first_match (rs : list ((IndexingProgressUpdate -> option bool -> bool)
                                 * DisplayState))
                     (u : IndexingProgressUpdate) (p : option bool)
  : DisplayState :=
  match rs with
  | [] => Nothing
  | (cond, ds) :: rest => if cond u p then ds else first_match rest u p
  end.

(** "Truncated percent ... floor-toward-zero": the integer part of the
    fraction [num / den]. *)
Definition truncated (num den : Z) : Z := Z.quot num den.

End Spec.

(* ================================================================= *)
(** ** Concrete values used in the examples *)

Module Sample.
Import JsNumber Model.

Definition sampleEnv : Env :=
  {| isJetBrains := false; getFontSize := of_Z 14;
     embeddingsProvider := None;
     TransformersJsEmbeddingsProvider_model := "all-MiniLM-L6-v2";
     tooltipPortalDiv := true; lightGray := "#999998" |}.

Definition jetBrainsEnv : Env :=
  {| isJetBrains := true; getFontSize := of_Z 14;
     embeddingsProvider := Some "all-MiniLM-L6-v2";
     TransformersJsEmbeddingsProvider_model := "all-MiniLM-L6-v2";
     tooltipPortalDiv := true; lightGray := "#999998" |}.

Definition update (st : string) (p : number) : IndexingProgressUpdate :=
  {| status := st; progress := p; desc := "Indexing files";
     shouldClearIndexes := None |}.

Definition corrupted : IndexingProgressUpdate :=
  {| status := "failed"; progress := pos_zero; desc := "Index corrupted";
     shouldClearIndexes := Some true |}.

Definition otherProviderEnv : Env :=
  {| isJetBrains := false; getFontSize := of_Z 14;
     embeddingsProvider := Some "text-embedding-3-small";
     TransformersJsEmbeddingsProvider_model := "all-MiniLM-L6-v2";
     tooltipPortalDiv := true; lightGray := "#999998" |}.

Definition half : number := of_ratio 5 10.

(** The component just after it was mounted with an update. *)
Definition mounted (u : IndexingProgressUpdate) : World := initial (Some u).

(** Child 0 of the row is the box of the display; child 0 of the box is
    the status dot. *)
Definition onBox : list nat := [O].
Definition onDot : list nat := [O; O].

End Sample.

(* ================================================================= *)
(** ** Further readings of the state, the tree and the trace *)

Module Reading.
Import JsNumber Model.
Local Open Scope list_scope.

(** The test of the [switch] that selects the pause toggle, and the test
    on the progress inside it. *)
Definition active (u : IndexingProgressUpdate) : bool :=
  (status u === "indexing") || (status u === "paused").

Definition inRange (u : IndexingProgressUpdate) : bool :=
  lt (progress u) (of_Z 1) && ge (progress u) pos_zero.

Definition withHovered (b : bool) (w : World) : World :=
  {| indexingStateProp := indexingStateProp w;
     paused := paused w; hovered := b;
     showDialog := showDialog w; dialogMessage := dialogMessage w;
     captured := captured w |}.

Definition setPausedMessage (b : bool) : Message :=
  {| action := "index/setPaused"; payload := Boolean b |}.

Definition forceReIndexMessage : Message :=
  {| action := "index/forceReIndex"; payload := Undefined |}.

Definition rebuildMessage : Message :=
  {| action := "index/forceReIndex"; payload := ClearIndexes true |}.

(** A message that asks the host to clear the index. *)
Definition clears (m : Message) : bool :=
  match payload m with ClearIndexes _ => true | _ => false end.

(** The three messages of the component, each with the payload it takes:
    none for the initialisation, a boolean for setPaused, none or
    [{shouldClearIndexes: true}] for forceReIndex. *)
Definition wellFormed (m : Message) : bool :=
  match payload m with
  | Undefined =>
      (action m === "index/indexingProgressBarInitialized")
      || (action m === "index/forceReIndex")
  | Boolean _ => action m === "index/setPaused"
  | ClearIndexes b => b && (action m === "index/forceReIndex")
  end.

(** The attributes of the status dot of a tree, if it has one. *)
Definition dot (tree : Node) : option (list Attr) :=
  match findTag StatusDot tree with
  | Some (Element _ attrs _) => Some attrs
  | _ => None
  end.

Definition blinks (tree : Node) : bool :=
  match dot tree with
  | Some attrs =>
      existsb (fun a => match a with ShouldBlink => true | _ => false end)
              attrs
  | None => false
  end.

Definition dotClickable (tree : Node) : bool :=
  match dot tree with
  | Some attrs =>
      existsb (fun a => match a with OnClick _ => true | _ => false end)
              attrs
  | None => false
  end.

Definition dotColor (tree : Node) : option string :=
  match dot tree with
  | Some attrs =>
      match List.find (fun a => match a with Color _ => true | _ => false end)
                      attrs with
      | Some (Color c) => Some c
      | _ => None
      end
  | None => None
  end.

(** The statuses the display chain knows. *)
Definition knownStatus (s : string) : bool :=
  (s === "failed") || (s === "loading") || (s === "done")
  || (s === "disabled") || (s === "paused") || (s === "indexing").

(** The commands a pointer entering ([b] true) or leaving ([b] false) the
    node at [path] runs in each display: only the box of the Indexing
    display listens. *)
Definition hoverCmds (b : bool) (ds : DisplayState) (path : list nat)
  : Handler :=
  match ds, path with
  | Indexing, O :: _ => [SetHovered b]
  | _, _ => []
  end.

(** One analytics event per message that asks to clear the index. *)
Definition rebuildEvents (out : list Message) : list string :=
  map (fun _ => "rebuild_index_clicked"%string) (filter clears out).

(** No dialog is held by the store. *)
Definition noDialog (w : World) : Prop :=
  showDialog w = false /\ dialogMessage w = None.

End Reading.

(* ================================================================= *)
(** ** Facts about numbers *)

Module NumberFacts.
Import JsNumber.

(** Swapping the operands of a comparison reverses its outcome. *)
Lemma compare_antisym (x y : number) :
  SFcompare y x = option_map CompOpp (SFcompare x y).
Proof.
  destruct x as [sx|sx| |sx mx ex], y as [sy|sy| |sy my ey];
    try reflexivity;
    try (destruct sx; reflexivity);
    try (destruct sy; reflexivity);
    try (destruct sx, sy; reflexivity).
  pose proof (Pos.compare_cont_antisym mx my Eq) as Hm. simpl in Hm.
  destruct sx, sy; simpl; try reflexivity;
    rewrite (Z.compare_antisym ex ey);
    destruct (ex ?= ey); simpl; try reflexivity;
    rewrite <- Hm; try rewrite CompOpp_involutive; reflexivity.
Qed.

Lemma lt_asym (x y : number) : lt x y = true -> lt y x = false.
Proof.
  unfold lt, SFltb. rewrite (compare_antisym x y).
  destruct (SFcompare x y) as [[ | | ]|]; simpl; congruence.
Qed.

(** [>=] and [<] exclude each other. *)
Lemma ge_not_lt (x y : number) : ge x y = true -> lt x y = false.
Proof.
  unfold ge, lt, SFleb, SFltb. rewrite (compare_antisym y x).
  destruct (SFcompare y x) as [[ | | ]|]; simpl; congruence.
Qed.

Lemma lt_not_ge (x y : number) : lt x y = true -> ge x y = false.
Proof.
  unfold ge, lt, SFleb, SFltb. rewrite (compare_antisym x y).
  destruct (SFcompare x y) as [[ | | ]|]; simpl; congruence.
Qed.

(** Two finite numbers that compare equal are the same number. *)
Lemma compare_Eq_finite s m e s' m' e' :
  SFcompare (S754_finite s m e) (S754_finite s' m' e') = Some Eq ->
  S754_finite s m e = S754_finite s' m' e'.
Proof.
  simpl. destruct s, s'; try discriminate;
    destruct (e ?= e') eqn:He; try discriminate;
    apply Z.compare_eq in He; subst e'; intros H;
    injection H as H.
  - apply (f_equal CompOpp) in H. rewrite CompOpp_involutive in H. simpl in H.
    apply Pos.compare_eq in H. congruence.
  - apply Pos.compare_eq in H. congruence.
Qed.

(** [Math.min(100, Math.max(0, x))] is the clamp of the specification. *)
Lemma fill_clamp_number (x : number) :
  Math_min [of_Z 100; Math_max [pos_zero; x]] = Spec.clamp_0_100 x.
Proof.
  destruct x as [s|s| |s m e]; try (destruct s; reflexivity); try reflexivity.
  destruct s; [reflexivity|].
  unfold Spec.clamp_0_100. cbn [is_nan].
  change (lt pos_zero (S754_finite false m e)) with true. cbv iota.
  change (Math_max [pos_zero; S754_finite false m e])
    with (S754_finite false m e).
  change (Math_min [of_Z 100; S754_finite false m e])
    with (if lt (S754_finite false m e) (of_Z 100)
          then S754_finite false m e else of_Z 100).
  destruct (lt (S754_finite false m e) (of_Z 100)) eqn:Hlt.
  - rewrite (lt_asym _ _ Hlt). reflexivity.
  - destruct (lt (of_Z 100) (S754_finite false m e)) eqn:Hgt; [reflexivity|].
    symmetry.
    apply (compare_Eq_finite false m e false 7036874417766400 (-46)).
    change (S754_finite false 7036874417766400 (-46)) with (of_Z 100).
    unfold lt, SFltb in Hlt, Hgt.
    rewrite (compare_antisym (S754_finite false m e)) in Hgt.
    destruct (SFcompare (S754_finite false m e) (of_Z 100))
      as [[ | | ]|] eqn:Hc; try reflexivity; try discriminate.
Qed.

(** *** Integers of at most 53 bits are numbers *)

Lemma digits2_size (m : positive) : digits2_pos m = Pos.size m.
Proof. induction m; simpl; congruence. Qed.

Lemma iter_xO_value (q k : positive) :
  Zpos (Pos.iter xO q k) = Zpos q * 2 ^ Zpos k.
Proof.
  induction k as [|k IH] using Pos.peano_ind.
  - simpl. lia.
  - rewrite Pos.iter_succ, Pos2Z.inj_succ, Z.pow_succ_r by lia.
    rewrite Pos2Z.inj_xO, IH. ring.
Qed.

Lemma iter_xO_digits (q k : positive) :
  digits2_pos (Pos.iter xO q k) = (digits2_pos q + k)%positive.
Proof.
  induction k as [|k IH] using Pos.peano_ind.
  - simpl. lia.
  - rewrite Pos.iter_succ. simpl. rewrite IH. lia.
Qed.

Lemma digits2_bound (q : positive) (n : Z) :
  0 <= n -> Zpos q < 2 ^ n -> Zpos (digits2_pos q) <= n.
Proof.
  intros Hn Hq. rewrite digits2_size.
  pose proof (Pos.size_le q) as Hs.
  assert (2 ^ Zpos (Pos.size q) <= 2 * Zpos q) as Hs'.
  { change (2 * Zpos q) with (Zpos q~0).
    rewrite <- Pos2Z.inj_pow. apply Pos2Z.pos_le_pos. exact Hs. }
  destruct (Z.le_gt_cases (Zpos (Pos.size q)) n) as [|Hgt]; [assumption|].
  assert (2 ^ (n + 1) <= 2 ^ Zpos (Pos.size q))
    by (apply Z.pow_le_mono_r; lia).
  rewrite Z.pow_add_r in * by lia. lia.
Qed.

Lemma digits2_lt (q : positive) : Zpos q < 2 ^ Zpos (digits2_pos q).
Proof.
  rewrite digits2_size. pose proof (Pos.size_gt q) as H.
  rewrite <- Pos2Z.inj_pow. apply Pos2Z.pos_lt_pos. exact H.
Qed.

Lemma valid_digits (s : bool) (m : positive) (e : Z) :
  valid_binary prec emax (S754_finite s m e) = true ->
  Zpos (digits2_pos m) <= 53.
Proof.
  cbn [valid_binary].
  unfold bounded, canonical_mantissa, fexp, emin, prec, emax.
  intros H. apply andb_prop in H. destruct H as [H _].
  apply Z.eqb_eq in H. lia.
Qed.

Lemma fexp_at_53 (e : Z) : -1074 <= e -> fexp prec emax (53 + e) - e = 0.
Proof. unfold fexp, emin, prec, emax. lia. Qed.

(** Rounding a mantissa of exactly 53 bits changes nothing. *)
Lemma round_aux_exact (s : bool) (m : positive) (e : Z) :
  Zpos (digits2_pos m) = 53 -> -1074 <= e <= 971 ->
  binary_round_aux prec emax s (Zpos m) e loc_Exact = S754_finite s m e.
Proof.
  intros Hd He. unfold binary_round_aux, shr_fexp.
  cbn [Zdigits2 shr_record_of_loc]. rewrite Hd, fexp_at_53 by lia.
  cbn [shr shr_m loc_of_shr_record round_nearest_even Zdigits2
       shr_record_of_loc].
  rewrite Hd, fexp_at_53 by lia. cbn [shr shr_m].
  replace (e <=? emax - prec) with true; [reflexivity|].
  symmetry. apply Z.leb_le. unfold emax, prec. lia.
Qed.

Lemma aligned_value (q : positive) :
  Zpos (digits2_pos q) <= 53 ->
  Zpos (digits2_pos (fst (aligned q))) = 53
  /\ snd (aligned q) = Zpos (digits2_pos q) - 53
  /\ Zpos (fst (aligned q)) = Zpos q * 2 ^ (53 - Zpos (digits2_pos q)).
Proof.
  intros Hd. unfold aligned, shl_align.
  destruct (Zpos (digits2_pos q) - 53 - 0) as [|k|k] eqn:Hk; try lia.
  - cbn [fst snd]. replace (53 - Zpos (digits2_pos q)) with 0 by lia.
    repeat split; lia.
  - cbn [fst snd]. rewrite iter_xO_digits, iter_xO_value.
    replace (53 - Zpos (digits2_pos q)) with (Zpos k) by lia.
    repeat split; lia.
Qed.

Lemma round_small (s : bool) (q : positive) :
  Zpos (digits2_pos q) <= 53 ->
  binary_round prec emax s q 0
  = S754_finite s (fst (aligned q)) (snd (aligned q)).
Proof.
  intros Hd. unfold binary_round.
  replace (fexp prec emax (Zpos (digits2_pos q) + 0))
    with (Zpos (digits2_pos q) - 53)
    by (unfold fexp, emin, prec, emax; lia).
  fold (aligned q). destruct (aligned_value q Hd) as (H53 & He & _).
  destruct (aligned q) as [mz ez]. cbn [fst snd] in *.
  apply round_aux_exact; lia.
Qed.

Lemma to_Z_round_small (s : bool) (q : positive) :
  Zpos (digits2_pos q) <= 53 ->
  to_Z (binary_round prec emax s q 0) = Some (cond_Zopp s (Zpos q)).
Proof.
  intros Hd. rewrite round_small by assumption.
  destruct (aligned_value q Hd) as (_ & He & Hm).
  destruct (aligned q) as [mz ez]. cbn [fst snd] in *. unfold to_Z.
  destruct (Z.leb_spec 0 ez).
  - replace ez with 0 by lia. rewrite Hm.
    replace (53 - Zpos (digits2_pos q)) with 0 by lia.
    do 2 f_equal. lia.
  - rewrite Hm. replace (- ez) with (53 - Zpos (digits2_pos q)) by lia.
    assert (0 < 2 ^ (53 - Zpos (digits2_pos q)))
      by (apply Z.pow_pos_nonneg; lia).
    rewrite Z.mod_mul, Z.div_mul by lia. reflexivity.
Qed.

(** [Math.trunc] rounds towards zero: on a finite number whose mantissa
    has at most 53 bits the result is the integer quotient, truncated, of
    the numerator by the denominator of its exact value. *)
Lemma trunc_quot (s : bool) (m : positive) (e : Z) :
  Zpos (digits2_pos m) <= 53 ->
  exists num den,
    exact (S754_finite s m e) = Some (num, den) /\ 0 < den /\
    to_Z (Math_trunc (S754_finite s m e)) = Some (Spec.truncated num den).
Proof.
  intros Hd. unfold exact, Math_trunc, to_Z, Spec.truncated.
  destruct (Z.leb_spec 0 e) as [He|He].
  - exists (cond_Zopp s (Zpos m * 2 ^ e)), 1.
    destruct (Z.leb_spec 0 e); [|lia].
    rewrite Z.quot_1_r. repeat split; lia.
  - exists (cond_Zopp s (Zpos m)), (2 ^ (- e)).
    assert (0 < 2 ^ (- e)) as Hp by (apply Z.pow_pos_nonneg; lia).
    rewrite Z.shiftr_div_pow2 by lia.
    assert (0 <= Zpos m / 2 ^ (- e) <= Zpos m) as Hq.
    { split; [apply Z.div_pos; lia|].
      apply Z.div_le_upper_bound; [lia|]. nia. }
    assert (Z.quot (cond_Zopp s (Zpos m)) (2 ^ (- e))
            = cond_Zopp s (Zpos m / 2 ^ (- e))) as Hquot.
    { destruct s; cbn [cond_Zopp].
      - rewrite Z.quot_opp_l by lia. rewrite Z.quot_div_nonneg by lia.
        reflexivity.
      - apply Z.quot_div_nonneg; lia. }
    rewrite Hquot. split; [reflexivity|]. split; [assumption|].
    destruct (Zpos m / 2 ^ (- e)) as [|q|q] eqn:Eq; try lia.
    + destruct s; reflexivity.
    + assert (Zpos (digits2_pos q) <= 53) as Hdq.
      { apply digits2_bound; [lia|].
        pose proof (digits2_lt m).
        assert (2 ^ Zpos (digits2_pos m) <= 2 ^ 53)
          by (apply Z.pow_le_mono_r; lia). lia. }
      destruct s; cbn [cond_Zopp Z.opp binary_normalize].
      * exact (to_Z_round_small true q Hdq).
      * exact (to_Z_round_small false q Hdq).
Qed.

End NumberFacts.

(* ================================================================= *)
(** ** Facts about the runtime *)

Module RuntimeFacts.
Import JsNumber Model NumberFacts.
Local Open Scope list_scope.

(** *** Running handlers *)

(** The messages a handler posts do not depend on the state. *)
Lemma exec_posts (h : Handler) (w : World) : snd (exec h w) = posts h.
Proof.
  revert w. induction h as [|c h IH]; intros w; [reflexivity|].
  cbn [exec]. destruct (exec1 c w) as [w1 out1] eqn:E1.
  specialize (IH w1). destruct (exec h w1) as [w2 out2]. cbn [snd] in *.
  subst out2. destruct c; cbn in E1; inversion E1; reflexivity.
Qed.

Lemma posts_app (h k : Handler) : posts (h ++ k) = posts h ++ posts k.
Proof. unfold posts. apply flat_map_app. Qed.

Lemma exec_app (h k : Handler) (w : World) :
  fst (exec (h ++ k) w) = fst (exec k (fst (exec h w))).
Proof.
  revert w. induction h as [|c h IH]; intros w; [reflexivity|].
  cbn [app exec]. destruct (exec1 c w) as [w1 out1].
  specialize (IH w1).
  destruct (exec (h ++ k) w1) as [w2 out2].
  destruct (exec h w1) as [w3 out3]. cbn [fst] in *.
  destruct (exec k w3). cbn [fst] in *. assumption.
Qed.

(** A handler that only posts leaves the state as it is. *)
Lemma exec_only_posts (h : Handler) (w : World) :
  Forall (fun c => exists a p, c = Post a p) h -> fst (exec h w) = w.
Proof.
  induction 1 as [|c h (a & p & ->) _ IH]; [reflexivity|].
  cbn [exec exec1]. destruct (exec h w) as [w2 out2]. cbn [fst] in *.
  assumption.
Qed.

(** Which effects run after a render that follows another. *)
Lemma updateEffects_paused (p p' : option bool) :
  updateEffects (useEffects p) (useEffects p')
  = if same_deps [DepPaused p] [DepPaused p'] then [] else pausedEffect p'.
Proof.
  unfold updateEffects, useEffects. cbn [combine map deps effect fst snd].
  cbn [same_deps List.concat app].
  destruct (dep_is (DepPaused p) (DepPaused p') && true);
    cbn; rewrite ?app_nil_r; reflexivity.
Qed.

Lemma updateEffects_same (p : option bool) :
  updateEffects (useEffects p) (useEffects p) = [].
Proof. rewrite updateEffects_paused. destruct p as [[|]|]; reflexivity. Qed.

Lemma updateEffects_toggle (p : option bool) :
  updateEffects (useEffects p) (useEffects (not_prev p))
  = [Post "index/setPaused" (Boolean (negb (truthy p)))].
Proof. rewrite updateEffects_paused. destruct p as [[|]|]; reflexivity. Qed.

(** Handlers on a path come from the attributes of the tree. *)
Lemma along_attrs (sel : Attr -> option Handler) (path : list nat) :
  forall (n : Node) (h : Handler),
    In h (along sel path n) ->
    h = [] \/ exists a, In a (attrsIn n) /\ sel a = Some h.
Proof.
  induction path as [|i rest IH]; intros n h Hin.
  - destruct n as [t attrs ch| | |c|]; cbn [along] in Hin;
      try contradiction.
    destruct (opaque t); [contradiction|].
    destruct Hin as [<-|[]]. unfold handlerOf.
    destruct (find _ attrs) as [a|] eqn:Hf; [|now left].
    apply find_some in Hf. destruct Hf as [Ha Hs].
    destruct (sel a) as [k|] eqn:Hk; [|discriminate].
    right. exists a. cbn [attrsIn]. rewrite in_app_iff. auto.
  - destruct n as [t attrs ch| | |c|]; cbn [along] in Hin; try contradiction.
    + destruct (opaque t); [contradiction|].
      destruct Hin as [<-|Hin].
      * unfold handlerOf.
        destruct (find _ attrs) as [a|] eqn:Hf; [|now left].
        apply find_some in Hf. destruct Hf as [Ha Hs].
        destruct (sel a) as [k|] eqn:Hk; [|discriminate].
        right. exists a. cbn [attrsIn]. rewrite in_app_iff. auto.
      * destruct (nth_error ch i) as [c|] eqn:Hn; [|contradiction].
        destruct (IH c h Hin) as [->|(a & Ha & Hs)]; [now left|].
        right. exists a. split; [|assumption]. cbn [attrsIn].
        rewrite in_app_iff. right. apply in_flat_map. exists c.
        split; [eapply nth_error_In; eassumption|assumption].
    + destruct i; [|contradiction].
      destruct (IH c h Hin) as [->|(a & Ha & Hs)]; [now left|].
      right. exists a. split; assumption.
Qed.

Lemma concat_all_nil {A} (l : list (list A)) :
  (forall h, In h l -> h = []) -> List.concat l = [].
Proof.
  induction l as [|x l IH]; intros H; [reflexivity|].
  cbn. rewrite (H x (or_introl eq_refl)), IH; [reflexivity|].
  intros h Hh. apply H. now right.
Qed.

(** Below a node without handlers of a kind, an event of that kind runs
    nothing. *)
Lemma along_quiet (sel : Attr -> option Handler) (n : Node) (path : list nat) :
  forallb (fun a => match sel a with Some _ => false | None => true end)
          (attrsIn n) = true ->
  forall h, In h (along sel path n) -> h = [].
Proof.
  intros Hq h Hin. destruct (along_attrs sel path n h Hin) as [|(a & Ha & Hs)];
    [assumption|].
  rewrite forallb_forall in Hq. specialize (Hq a Ha). rewrite Hs in Hq.
  discriminate.
Qed.

(** *** Clicks *)

Lemma click_quiet (n : Node) (path : list nat) :
  forallb (fun a => match onClickOf a with Some _ => false | None => true end)
          (attrsIn n) = true ->
  List.concat (rev (along onClickOf path n)) = [].
Proof.
  intros Hq. apply concat_all_nil. intros h Hh. apply in_rev in Hh.
  exact (along_quiet onClickOf n path Hq h Hh).
Qed.

Lemma concat_rev_cons {A} (x : list A) (l : list (list A)) :
  List.concat (rev (x :: l)) = List.concat (rev l) ++ x.
Proof. cbn [rev]. rewrite concat_app. cbn. now rewrite app_nil_r. Qed.

Ltac quiet_tree env :=
  apply click_quiet; unfold tooltip; destruct (tooltipPortalDiv env); reflexivity.

(** A click runs the handlers below the row that it reaches, then the
    handler of the row. *)
Lemma clickCmds_render env u p h path :
  clickCmds path (render env u p h)
  = subClick (displayState u p) path ++ onClick env u.
Proof.
  unfold clickCmds, render.
  destruct path as [|[|i] rest].
  - cbn. rewrite app_nil_r. destruct (displayState u p); reflexivity.
  - cbn [along nth_error opaque]. rewrite concat_rev_cons.
    change (handlerOf onClickOf _) with (onClick env u).
    f_equal. unfold branch.
    destruct (displayState u p); cbn [subClick]; try (quiet_tree env).
    + (* Paused: the dot is not entered, the heading has no handler *)
      destruct rest as [|[|[|j]] r]; try reflexivity.
      * destruct r; reflexivity.
      * cbn [along nth_error opaque]. rewrite concat_rev_cons.
        change (handlerOf onClickOf []) with (@nil Cmd). rewrite app_nil_r.
        apply click_quiet. reflexivity.
      * cbn [along nth_error opaque]. destruct j; reflexivity.
    + (* Indexing *)
      destruct rest as [|[|[|j]] r]; try reflexivity;
        cbn [along nth_error opaque]; rewrite concat_rev_cons;
        change (handlerOf onClickOf _)
          with [Post "index/setPaused" (Boolean true)].
      * destruct r; reflexivity.
      * rewrite click_quiet; reflexivity.
      * destruct j; reflexivity.
  - cbn [along nth_error opaque]. rewrite concat_rev_cons.
    change (handlerOf onClickOf _) with (onClick env u).
    destruct i; cbn; destruct (displayState u p); reflexivity.
Qed.

Lemma exec_eq (h : Handler) (w : World) : exec h w = (fst (exec h w), posts h).
Proof. rewrite <- (exec_posts h w). apply surjective_pairing. Qed.

Lemma exec_subClick (ds : DisplayState) (path : list nat) (w : World) :
  fst (exec (subClick ds path) w) = w.
Proof.
  destruct ds; try reflexivity; destruct path as [|[|i] r]; reflexivity.
Qed.

(** A click, step by step: the handlers it reaches, the render that
    follows, the effects of that render. *)
Lemma step_click (env : Env) (w : World) (path : list nat) :
  step env w (Click path)
  = let w1 := fst (exec (onClick env (current w)) w) in
    let fx := updateEffects (useEffects (paused w)) (useEffects (paused w1)) in
    (fst (exec fx w1),
     posts (subClick (shown w) path) ++ posts (onClick env (current w))
     ++ posts fx).
Proof.
  unfold step, handle, view. rewrite clickCmds_render.
  fold (current w). fold (shown w).
  rewrite (exec_eq (_ ++ _) w), exec_app, exec_subClick, posts_app.
  cbv zeta. rewrite (exec_eq (updateEffects _ _)). now rewrite app_assoc.
Qed.

Lemma step_click_toggle (env : Env) (w : World) (path : list nat) :
  onClick env (current w) = [SetPaused not_prev] ->
  step env w (Click path)
  = (withPaused (not_prev (paused w)) w,
     posts (subClick (shown w) path)
     ++ [{| action := "index/setPaused";
            payload := Boolean (negb (truthy (paused w))) |}]).
Proof.
  intros H. rewrite step_click, H. cbn [exec exec1 fst paused posts flat_map app].
  rewrite updateEffects_toggle. reflexivity.
Qed.

Lemma step_click_post (env : Env) (w : World) (path : list nat) a p :
  onClick env (current w) = [Post a p] ->
  step env w (Click path)
  = (w, posts (subClick (shown w) path) ++ [{| action := a; payload := p |}]).
Proof.
  intros H. rewrite step_click, H. cbn [exec exec1 fst paused posts flat_map app].
  rewrite updateEffects_same. reflexivity.
Qed.

Lemma step_click_dialog (env : Env) (w : World) (path : list nat) :
  onClick env (current w)
  = [SetShowDialog true;
     SetDialogMessage "Rebuild codebase index" "Rebuild" rebuildText
                      rebuildOnConfirm] ->
  step env w (Click path)
  = (withDialog rebuildDialog w, posts (subClick (shown w) path)).
Proof.
  intros H. rewrite step_click, H. cbn [exec exec1 fst paused posts flat_map app].
  rewrite updateEffects_same. cbn. now rewrite app_nil_r.
Qed.

Lemma sent_app a (l k : list Message) : sent a (l ++ k) = sent a l ++ sent a k.
Proof. apply filter_app. Qed.

Lemma subClick_setPaused (ds : DisplayState) (path : list nat) :
  sent "index/forceReIndex" (posts (subClick ds path)) = []
  /\ sent "index/indexingProgressBarInitialized" (posts (subClick ds path)) = [].
Proof.
  destruct ds; try (split; reflexivity);
    destruct path as [|[|i] [|[|j] r]]; split; reflexivity.
Qed.


(** *** What [onClick] does, by status *)

Lemma onClick_active_in_range env u :
  status u = "indexing" \/ status u = "paused" ->
  lt (progress u) (of_Z 1) = true -> ge (progress u) pos_zero = true ->
  onClick env u = [SetPaused not_prev].
Proof.
  intros [Hs|Hs] Hlt Hge; unfold onClick; rewrite Hs, Hlt, Hge; reflexivity.
Qed.

Lemma onClick_active_out_of_range env u :
  status u = "indexing" \/ status u = "paused" ->
  lt (progress u) (of_Z 1) && ge (progress u) pos_zero = false ->
  onClick env u = [Post "index/forceReIndex" Undefined].
Proof.
  intros [Hs|Hs] Hc; unfold onClick; rewrite Hs, Hc; reflexivity.
Qed.

Lemma shown_failed w : status (current w) = "failed" -> shown w = Failed.
Proof. unfold shown, displayState. intros ->. reflexivity. Qed.

Lemma step_confirm (env : Env) (w : World) (d : Dialog) :
  showDialog w = true -> dialogMessage w = Some d ->
  onConfirm d = rebuildOnConfirm ->
  snd (step env w Confirm)
  = [{| action := "index/forceReIndex"; payload := ClearIndexes true |}]
  /\ paused (fst (step env w Confirm)) = paused w
  /\ showDialog (fst (step env w Confirm)) = false
  /\ dialogMessage (fst (step env w Confirm)) = None.
Proof.
  intros Hs Hd Hk. unfold step, handle, dialogEvent. rewrite Hs, Hd, Hk.
  cbn [rebuildOnConfirm exec exec1 closeDialog paused app].
  rewrite updateEffects_same. repeat split.
Qed.

Lemma step_dismiss (env : Env) (w : World) :
  snd (step env w Dismiss) = []
  /\ paused (fst (step env w Dismiss)) = paused w
  /\ (dialogMessage w = None ->
      dialogMessage (fst (step env w Dismiss)) = None)
  /\ (showDialog w = true -> dialogMessage w <> None ->
      showDialog (fst (step env w Dismiss)) = false
      /\ dialogMessage (fst (step env w Dismiss)) = None).
Proof.
  unfold step, handle, dialogEvent.
  destruct (showDialog w) eqn:Hs, (dialogMessage w) as [d|] eqn:Hd;
    cbn [closeDialog paused]; rewrite updateEffects_same; cbn;
    repeat split; congruence.
Qed.

Lemma onClick_failed_dialog env u :
  status u = "failed" ->
  truthy (shouldClearIndexes u) = true -> isJetBrains env = false ->
  onClick env u
  = [SetShowDialog true;
     SetDialogMessage "Rebuild codebase index" "Rebuild" rebuildText
                      rebuildOnConfirm].
Proof. intros Hs Hc Hj. unfold onClick. rewrite Hs, Hc, Hj. reflexivity. Qed.

Lemma onClick_failed_direct env u :
  status u = "failed" ->
  truthy (shouldClearIndexes u) = false \/ isJetBrains env = true ->
  onClick env u = [Post "index/forceReIndex" Undefined].
Proof.
  intros Hs [H|H]; unfold onClick; rewrite Hs, H; [reflexivity|].
  rewrite andb_false_r. reflexivity.
Qed.

Lemma shown_paused_status w :
  shown w = Paused ->
  status (current w) = "indexing" \/ status (current w) = "paused".
Proof.
  unfold shown, displayState.
  destruct (status (current w) === "failed"); [discriminate|].
  destruct (status (current w) === "loading"); [discriminate|].
  destruct (status (current w) === "done"); [discriminate|].
  destruct (status (current w) === "disabled"); [discriminate|].
  destruct (String.eqb_spec (status (current w)) "paused") as [->|_];
    [now right|].
  destruct (String.eqb_spec (status (current w)) "indexing") as [->|_];
    [now left|].
  rewrite andb_false_r. discriminate.
Qed.

Lemma shown_indexing w :
  status (current w) = "indexing" -> truthy (paused w) = false ->
  shown w = Indexing.
Proof. unfold shown, displayState. intros -> ->. reflexivity. Qed.


(** A click on the heading of the Paused display, beside the dot, runs
    the row handler only: the new pause intent is posted once, by the
    effect. *)
Lemma paused_heading_click_posts_once
      (env : Env) (w : World) (path : list nat) :
  shown w = Paused ->
  lt (progress (current w)) (of_Z 1) = true ->
  ge (progress (current w)) pos_zero = true ->
  snd (step env w (Click (O :: 1%nat :: path)))
  = [{| action := "index/setPaused";
        payload := Boolean (negb (truthy (paused w))) |}].
Proof.
  intros Hd Hlt Hge.
  rewrite (step_click_toggle env w _
             (onClick_active_in_range env _ (shown_paused_status w Hd)
                                      Hlt Hge)).
  rewrite Hd. reflexivity.
Qed.

(** *** Events and what they preserve *)

Lemma onClick_cases env u :
  onClick env u = [SetPaused not_prev]
  \/ onClick env u = [Post "index/forceReIndex" Undefined]
  \/ onClick env u
     = [SetShowDialog true;
        SetDialogMessage "Rebuild codebase index" "Rebuild" rebuildText
                         rebuildOnConfirm].
Proof.
  unfold onClick.
  destruct (status u === "failed").
  - destruct (truthy (shouldClearIndexes u) && negb (isJetBrains env)); auto.
  - destruct ((status u === "indexing") || (status u === "paused")); auto.
    destruct (lt (progress u) (of_Z 1) && ge (progress u) pos_zero); auto.
Qed.

(** What any click does to the state and to the trace. *)
Lemma step_click_cases (env : Env) (w : World) (path : list nat) :
  exists w1 m,
    step env w (Click path) = (w1, posts (subClick (shown w) path) ++ m)
    /\ ((w1 = withPaused (not_prev (paused w)) w
         /\ m = [{| action := "index/setPaused";
                    payload := Boolean (negb (truthy (paused w))) |}])
        \/ (w1 = w
            /\ m = [{| action := "index/forceReIndex"; payload := Undefined |}])
        \/ (w1 = withDialog rebuildDialog w /\ m = [])).
Proof.
  destruct (onClick_cases env (current w)) as [H|[H|H]].
  - eexists _, _. rewrite (step_click_toggle _ _ _ H). split; [reflexivity|].
    left. split; reflexivity.
  - eexists _, _. rewrite (step_click_post _ _ _ _ _ H). split; [reflexivity|].
    right; left. split; reflexivity.
  - exists (withDialog rebuildDialog w), [].
    rewrite (step_click_dialog _ _ _ H), app_nil_r. split; [reflexivity|].
    right; right. split; reflexivity.
Qed.

Lemma render_hoverAttr env u p h :
  forallb hoverAttr (attrsIn (render env u p h)) = true.
Proof.
  unfold render, branch, tooltip.
  destruct (displayState u p), (tooltipPortalDiv env); reflexivity.
Qed.

Lemma hoverOnly_concat (l : list Handler) :
  (forall h, In h l -> hoverOnly h = true) -> hoverOnly (List.concat l) = true.
Proof.
  induction l as [|x l IH]; intros H; [reflexivity|].
  cbn [List.concat]. unfold hoverOnly in *. rewrite forallb_app.
  rewrite (H x (or_introl eq_refl)). apply IH. intros h Hh. apply H. now right.
Qed.

Lemma exec_hoverOnly (h : Handler) (w : World) :
  hoverOnly h = true ->
  posts h = []
  /\ paused (fst (exec h w)) = paused w
  /\ showDialog (fst (exec h w)) = showDialog w
  /\ dialogMessage (fst (exec h w)) = dialogMessage w
  /\ indexingStateProp (fst (exec h w)) = indexingStateProp w.
Proof.
  revert w. induction h as [|c h IH]; intros w Hh; [repeat split|].
  cbn [hoverOnly forallb] in Hh. apply andb_prop in Hh. destruct Hh as [Hc Hh].
  destruct c; try discriminate. cbn [exec exec1 posts flat_map app].
  match goal with |- context [exec h ?w'] => specialize (IH w' Hh) end.
  destruct (exec h _) as [w2 o2]. cbn [fst] in *. exact IH.
Qed.

Lemma mouse_handlers (sel : Attr -> option Handler) env u p h path :
  sel = onMouseEnterOf \/ sel = onMouseLeaveOf ->
  forall k, In k (along sel path (render env u p h)) -> hoverOnly k = true.
Proof.
  intros Hsel k Hk.
  destruct (along_attrs sel path _ k Hk) as [->|(a & Ha & Hs)]; [reflexivity|].
  pose proof (render_hoverAttr env u p h) as Hall.
  rewrite forallb_forall in Hall. specialize (Hall a Ha).
  destruct Hsel; subst sel; destruct a; cbn in Hs; try discriminate;
    injection Hs as <-; exact Hall.
Qed.

(** Hovering posts nothing and leaves the pause intent and the dialog
    alone. *)
Lemma step_mouse (env : Env) (w : World) (e : Event) :
  (exists path, e = MouseEnter path \/ e = MouseLeave path) ->
  snd (step env w e) = []
  /\ paused (fst (step env w e)) = paused w
  /\ showDialog (fst (step env w e)) = showDialog w
  /\ dialogMessage (fst (step env w e)) = dialogMessage w.
Proof.
  intros (path & He).
  assert (exists k, handle env w e = exec k w /\ hoverOnly k = true)
    as (k & Hk & Hh).
  { destruct He; subst e; cbn [handle]; eexists; (split; [reflexivity|]);
      apply hoverOnly_concat; intros k Hk; try rewrite <- in_rev in Hk;
      unfold view in Hk.
    - exact (mouse_handlers _ _ _ _ _ _ (or_introl eq_refl) k Hk).
    - exact (mouse_handlers _ _ _ _ _ _ (or_intror eq_refl) k Hk). }
  unfold step. rewrite Hk. rewrite (exec_eq k w).
  destruct (exec_hoverOnly k w Hh) as (Hp & Hpa & Hsd & Hdm & _).
  rewrite Hpa, updateEffects_same, Hp. cbn. auto.
Qed.

Lemma step_render (env : Env) (w : World) u :
  step env w (Render u) = (withProp u w, []).
Proof.
  unfold step, handle. cbn [withProp paused]. rewrite updateEffects_same.
  reflexivity.
Qed.

Lemma step_confirm_closed (env : Env) (w : World) :
  showDialog w = false \/ dialogMessage w = None ->
  step env w Confirm = (w, []).
Proof.
  intros H. unfold step, handle, dialogEvent.
  destruct (showDialog w), (dialogMessage w) as [d|];
    try (destruct H; discriminate); rewrite updateEffects_same; reflexivity.
Qed.

Lemma step_dismiss_state (env : Env) (w : World) :
  fst (step env w Dismiss) = w \/ fst (step env w Dismiss) = closeDialog w.
Proof.
  unfold step, handle, dialogEvent.
  destruct (showDialog w), (dialogMessage w) as [d|];
    cbn [closeDialog paused]; rewrite updateEffects_same; cbn; auto.
Qed.

(** Every event keeps the dialog, if one is open, the rebuild dialog, and
    posts no initialisation message; an event that is not a click leaves
    the pause intent alone and asks for no pause or resume. *)
Lemma step_invariant (env : Env) (w : World) (e : Event) :
  quiet_dialog w ->
  quiet_dialog (fst (step env w e))
  /\ sent "index/indexingProgressBarInitialized" (snd (step env w e)) = []
  /\ (isClick e = false ->
      paused (fst (step env w e)) = paused w
      /\ sent "index/setPaused" (snd (step env w e)) = []).
Proof.
  intros Hq. destruct e as [path|path|path|u| |].
  - destruct (step_click_cases env w path) as (w1 & m & -> & Hc).
    cbn [fst snd isClick]. rewrite sent_app.
    rewrite (proj2 (subClick_setPaused _ _)).
    split; [|split; [|discriminate]].
    + destruct Hc as [(-> & _)|[(-> & _)|(-> & _)]];
        [exact Hq|exact Hq|reflexivity].
    + destruct Hc as [(_ & ->)|[(_ & ->)|(_ & ->)]]; reflexivity.
  - destruct (step_mouse env w (MouseEnter path)) as (Ho & Hp & _ & Hd);
      [eauto|].
    unfold quiet_dialog. rewrite Ho, Hp, Hd. repeat split. exact Hq.
  - destruct (step_mouse env w (MouseLeave path)) as (Ho & Hp & _ & Hd);
      [eauto|].
    unfold quiet_dialog. rewrite Ho, Hp, Hd. repeat split. exact Hq.
  - rewrite step_render. repeat split. exact Hq.
  - destruct (showDialog w) eqn:Hs; [destruct (dialogMessage w) as [d|] eqn:Hd|].
    + unfold quiet_dialog in Hq. rewrite Hd in Hq.
      destruct (step_confirm env w d Hs Hd Hq) as (Ho & Hp & _ & Hn).
      unfold quiet_dialog. rewrite Ho, Hp, Hn. repeat split.
    + rewrite (step_confirm_closed env w (or_intror Hd)). repeat split.
      exact Hq.
    + rewrite (step_confirm_closed env w (or_introl Hs)). repeat split.
      exact Hq.
  - destruct (step_dismiss env w) as (Ho & Hp & _).
    rewrite Ho, Hp. repeat split.
    destruct (step_dismiss_state env w) as [->| ->]; [exact Hq|reflexivity].
Qed.

Lemma run_initialized (env : Env) (events : list Event) :
  forall w, quiet_dialog w ->
    sent "index/indexingProgressBarInitialized" (snd (run env w events)) = [].
Proof.
  induction events as [|e events IH]; intros w Hq; [reflexivity|].
  cbn [run]. destruct (step_invariant env w e Hq) as (Hq1 & Ho1 & _).
  destruct (step env w e) as [w1 out1]. cbn [fst snd] in *.
  specialize (IH w1 Hq1). destruct (run env w1 events) as [w2 out2].
  cbn [snd] in *. rewrite sent_app, Ho1, IH. reflexivity.
Qed.

Lemma run_without_clicks (env : Env) (events : list Event) :
  forallb (fun e => negb (isClick e)) events = true ->
  forall w, quiet_dialog w ->
    paused (fst (run env w events)) = paused w
    /\ sent "index/setPaused" (snd (run env w events)) = [].
Proof.
  induction events as [|e events IH]; intros Hall w Hq; [split; reflexivity|].
  cbn [forallb] in Hall. apply andb_prop in Hall. destruct Hall as [He Hall].
  apply negb_true_iff in He.
  cbn [run]. destruct (step_invariant env w e Hq) as (Hq1 & _ & Hn).
  destruct (Hn He) as [Hp1 Ho1].
  destruct (step env w e) as [w1 out1]. cbn [fst snd] in *.
  destruct (IH Hall w1 Hq1) as [Hp2 Ho2].
  destruct (run env w1 events) as [w2 out2]. cbn [fst snd] in *.
  rewrite sent_app, Ho1, Ho2. split; [congruence|reflexivity].
Qed.

Lemma mount_initial u : mount u = (initial u, [initMessage]).
Proof. reflexivity. Qed.


(** *** The rendered tree *)

Lemma heading_indexing env u p h :
  displayState u p = Indexing ->
  heading (render env u p h) = Some (toString (percent u) ++ "%")%string.
Proof. intros H. unfold heading, textOf, render, branch. rewrite H. reflexivity. Qed.

Lemma heading_paused env u p h :
  displayState u p = Paused ->
  heading (render env u p h)
  = Some ("Indexing paused (" ++ toString (percent u) ++ "%)")%string.
Proof. intros H. unfold heading, textOf, render, branch. rewrite H. reflexivity. Qed.


Lemma getIndexingErrMsg_unsupported env1 env2 msg :
  unsupportedProvider env1 = unsupportedProvider env2 ->
  getIndexingErrMsg env1 msg = getIndexingErrMsg env2 msg.
Proof.
  unfold getIndexingErrMsg. fold (unsupportedProvider env1).
  fold (unsupportedProvider env2). intros ->. reflexivity.
Qed.

Lemma onClick_env env1 env2 u :
  isJetBrains env1 = isJetBrains env2 -> onClick env1 u = onClick env2 u.
Proof. unfold onClick. intros ->. reflexivity. Qed.


(** Outside the status "failed" the row handler reads nothing of the
    environment. *)
Lemma onClick_not_failed env1 env2 u :
  status u <> "failed" -> onClick env1 u = onClick env2 u.
Proof.
  intros H. apply String.eqb_neq in H. unfold onClick. rewrite H.
  reflexivity.
Qed.

(** The tooltip reads the portal and, in the Failed display, the message
    of [getIndexingErrMsg]. *)
Lemma tooltipText_render env u p h :
  tooltipText (render env u p h)
  = if tooltipPortalDiv env
    then match displayState u p with
         | Failed => Some (getIndexingErrMsg env (desc u))
         | Done => Some "Index up to dateClick to force re-indexing"%string
         | Disabled => Some (desc u)
         | _ => None
         end
    else None.
Proof.
  unfold tooltipText, textOf, render, branch, tooltip.
  destruct (displayState u p), (tooltipPortalDiv env); reflexivity.
Qed.

Lemma dotHandler_render env u p h :
  dotHandler (render env u p h)
  = match displayState u p with
    | Paused => Some [Post "index/setPaused" (Boolean false)]
    | _ => None
    end.
Proof.
  unfold dotHandler, render, branch. destruct (displayState u p); reflexivity.
Qed.

(** The heading, the line under the bar and the fill are the same in
    every environment. *)
Lemma labels_independent_of_environment
      (env1 env2 : Env) (u : IndexingProgressUpdate) (p : option bool) (h : bool) :
  heading (render env1 u p h) = heading (render env2 u p h)
  /\ info (render env1 u p h) = info (render env2 u p h)
  /\ completed (render env1 u p h) = completed (render env2 u p h).
Proof.
  unfold heading, info, completed, textOf, render, branch, tooltip.
  destruct (displayState u p), (tooltipPortalDiv env1), (tooltipPortalDiv env2);
    repeat split.
Qed.

End RuntimeFacts.

(* ================================================================= *)
(** ** Properties of the component *)

Import JsNumber Model NumberFacts RuntimeFacts Sample.
Local Open Scope list_scope.

(** C1.  Terminal statuses take precedence over the pause intent: when the
    status is "done", "failed" or "disabled" the display is Done, Failed or
    Disabled, whatever the pause intent is (so never Paused); and the
    display is the first match of the rules failed, loading, done,
    disabled, paused, indexing, in this order. *)
Theorem terminal_status_precedence
        (u : IndexingProgressUpdate) (p : option bool) :
  (status u = "done" -> displayState u p = Done)
  /\ (status u = "failed" -> displayState u p = Failed)
  /\ (status u = "disabled" -> displayState u p = Disabled)
  /\ displayState u p = Spec.first_match Spec.rules u p.
Proof.
  unfold displayState.
  repeat split; try (intros ->; reflexivity).
Qed.

Lemma terminal_status_precedence_witness :
  displayState (update "done" half) (Some true) = Done
  /\ displayState (update "failed" half) (Some true) = Failed
  /\ displayState (update "disabled" half) (Some true) = Disabled.
Proof.
  split; [|split].
  - destruct (terminal_status_precedence (update "done" half) (Some true))
      as (H & _). exact (H eq_refl).
  - destruct (terminal_status_precedence (update "failed" half) (Some true))
      as (_ & H & _). exact (H eq_refl).
  - destruct (terminal_status_precedence (update "disabled" half) (Some true))
      as (_ & _ & H & _). exact (H eq_refl).
Defined.

(** C2.  Row-level click dispatch for the active statuses: with status
    "indexing" or "paused", a click (anywhere in the row) with
    [0 <= progress < 1] negates the pause intent, unset counting as not
    paused so that the first toggle gives true, and sends no forceReIndex;
    with [progress >= 1] or [progress < 0] it sends forceReIndex with no
    payload, once, and leaves the pause intent as it is. *)
Theorem row_click_dispatch (env : Env) (w : World) (path : list nat) :
  status (current w) = "indexing" \/ status (current w) = "paused" ->
  (lt (progress (current w)) (of_Z 1) = true ->
   ge (progress (current w)) pos_zero = true ->
     onClick env (current w) = [SetPaused not_prev]
     /\ paused (fst (step env w (Click path)))
        = Some (negb (truthy (paused w)))
     /\ (paused w = None ->
         paused (fst (step env w (Click path))) = Some true)
     /\ sent "index/forceReIndex" (snd (step env w (Click path))) = [])
  /\ (ge (progress (current w)) (of_Z 1) = true
      \/ lt (progress (current w)) pos_zero = true ->
     onClick env (current w) = [Post "index/forceReIndex" Undefined]
     /\ paused (fst (step env w (Click path))) = paused w
     /\ sent "index/forceReIndex" (snd (step env w (Click path)))
        = [{| action := "index/forceReIndex"; payload := Undefined |}]).
Proof.
  intros Hs. split.
  - intros Hlt Hge.
    pose proof (onClick_active_in_range env _ Hs Hlt Hge) as Hc.
    rewrite (step_click_toggle env w path Hc).
    cbn [fst snd]. repeat split.
    + exact Hc.
    + intros ->. reflexivity.
    + rewrite sent_app. rewrite (proj1 (subClick_setPaused _ _)). reflexivity.
  - intros Hout.
    assert (lt (progress (current w)) (of_Z 1)
            && ge (progress (current w)) pos_zero = false) as Hc.
    { destruct Hout as [H|H].
      - rewrite (ge_not_lt _ _ H). reflexivity.
      - rewrite (lt_not_ge _ _ H). apply andb_false_r. }
    pose proof (onClick_active_out_of_range env _ Hs Hc) as Hk.
    rewrite (step_click_post env w path _ _ Hk).
    cbn [fst snd]. split; [exact Hk|]. split; [reflexivity|].
    rewrite sent_app. rewrite (proj1 (subClick_setPaused _ _)). reflexivity.
Qed.

Lemma row_click_dispatch_witness :
  paused (fst (step sampleEnv (mounted (update "paused" half)) (Click [])))
  = Some true
  /\ sent "index/forceReIndex"
          (snd (step sampleEnv (mounted (update "indexing" (of_Z 1)))
                     (Click onBox)))
     = [{| action := "index/forceReIndex"; payload := Undefined |}].
Proof.
  split.
  - destruct (row_click_dispatch sampleEnv (mounted (update "paused" half)) []
                (or_intror eq_refl)) as [H _].
    destruct (H eq_refl eq_refl) as (_ & _ & H1 & _). exact (H1 eq_refl).
  - destruct (row_click_dispatch sampleEnv
                (mounted (update "indexing" (of_Z 1))) onBox
                (or_introl eq_refl)) as [_ H].
    destruct (H (or_introl eq_refl)) as (_ & _ & H1). exact H1.
Defined.

(** C3.  The confirmation detour of the Failed display: when the update
    has [shouldClearIndexes] true and the host is not JetBrains, a click
    opens the rebuild dialog and sends nothing; confirming the dialog
    sends forceReIndex with [{shouldClearIndexes: true}] and nothing else,
    dismissing it sends nothing and closes it.  When [shouldClearIndexes]
    is not true or the host is JetBrains, the click sends forceReIndex
    with no payload at once and changes nothing else, so no dialog
    opens. *)
Theorem failed_click_confirmation (env : Env) (w : World) (path : list nat) :
  status (current w) = "failed" ->
  (truthy (shouldClearIndexes (current w)) = true -> isJetBrains env = false ->
     snd (step env w (Click path)) = []
     /\ showDialog (fst (step env w (Click path))) = true
     /\ dialogMessage (fst (step env w (Click path))) = Some rebuildDialog
     /\ snd (step env (fst (step env w (Click path))) Confirm)
        = [{| action := "index/forceReIndex"; payload := ClearIndexes true |}]
     /\ snd (step env (fst (step env w (Click path))) Dismiss) = []
     /\ showDialog (fst (step env (fst (step env w (Click path))) Dismiss))
        = false)
  /\ (truthy (shouldClearIndexes (current w)) = false
      \/ isJetBrains env = true ->
     step env w (Click path)
     = (w, [{| action := "index/forceReIndex"; payload := Undefined |}])).
Proof.
  intros Hs. split.
  - intros Hc Hj.
    rewrite (step_click_dialog env w path
               (onClick_failed_dialog env _ Hs Hc Hj)).
    rewrite (shown_failed w Hs). cbn [fst snd subClick posts flat_map].
    repeat split.
    + apply (step_confirm env _ rebuildDialog); reflexivity.
    + apply step_dismiss.
    + apply step_dismiss; [reflexivity|discriminate].
  - intros Hn.
    rewrite (step_click_post env w path _ _
               (onClick_failed_direct env _ Hs Hn)).
    rewrite (shown_failed w Hs). reflexivity.
Qed.

Lemma failed_click_confirmation_witness :
  (snd (step sampleEnv (mounted corrupted) (Click onDot)) = []
   /\ showDialog (fst (step sampleEnv (mounted corrupted) (Click onDot)))
      = true)
  /\ step jetBrainsEnv (mounted corrupted) (Click onDot)
     = (mounted corrupted,
        [{| action := "index/forceReIndex"; payload := Undefined |}]).
Proof.
  split.
  - destruct (failed_click_confirmation sampleEnv (mounted corrupted) onDot
                eq_refl) as [H _].
    destruct (H eq_refl eq_refl) as (H1 & H2 & _). split; assumption.
  - destruct (failed_click_confirmation jetBrainsEnv (mounted corrupted) onDot
                eq_refl) as [_ H].
    exact (H (or_intror eq_refl)).
Defined.

(** C4 (the component departs from the claim).  A click on the Indexing
    display (status "indexing", pause intent not true, progress in
    [0, 1)) sends index/setPaused with payload true twice, not once: the
    click handler of the box posts it, and the click goes on to the row,
    whose handler sets the pause intent to true, after which the pause
    effect posts it again. *)
Theorem indexing_click_posts_setPaused_twice
        (env : Env) (w : World) (path : list nat) :
  status (current w) = "indexing" -> truthy (paused w) = false ->
  lt (progress (current w)) (of_Z 1) = true ->
  ge (progress (current w)) pos_zero = true ->
  snd (step env w (Click (O :: path)))
  = [{| action := "index/setPaused"; payload := Boolean true |};
     {| action := "index/setPaused"; payload := Boolean true |}]
  /\ paused (fst (step env w (Click (O :: path)))) = Some true.
Proof.
  intros Hs Hp Hlt Hge.
  rewrite (step_click_toggle env w _
             (onClick_active_in_range env _ (or_introl Hs) Hlt Hge)).
  rewrite (shown_indexing w Hs Hp). unfold not_prev. rewrite Hp.
  split; reflexivity.
Qed.

Lemma indexing_click_posts_setPaused_twice_witness :
  List.length (sent "index/setPaused"
            (snd (step sampleEnv (mounted (update "indexing" half))
                       (Click onBox)))) = 2%nat.
Proof.
  unfold onBox.
  rewrite (proj1 (indexing_click_posts_setPaused_twice
                    sampleEnv (mounted (update "indexing" half)) []
                    eq_refl eq_refl eq_refl eq_refl)).
  reflexivity.
Defined.

(** C5.  In the Paused display (status "paused", or status "indexing"
    with a pause intent of true), a click on the status dot sends
    index/setPaused with payload false, that message only, whatever the
    progress, and leaves the state, the pause intent included, as it is:
    it bypasses the toggle of the row handler, which a click on the row
    with progress in [0, 1) performs. *)
Theorem paused_dot_click_resumes_directly (env : Env) (w : World) :
  shown w = Paused ->
  dotClick env w
  = (w, [{| action := "index/setPaused"; payload := Boolean false |}])
  /\ (lt (progress (current w)) (of_Z 1) = true ->
      ge (progress (current w)) pos_zero = true ->
      forall path,
        paused (fst (step env w (Click path)))
        = Some (negb (truthy (paused w)))
        /\ paused (fst (step env w (Click path))) <> paused (fst (dotClick env w))).
Proof.
  intros Hd.
  assert (dotClick env w
          = (w, [{| action := "index/setPaused"; payload := Boolean false |}]))
    as Hdot.
  { unfold dotClick, dotHandler, view, render, branch.
    fold (current w). unfold shown in Hd. rewrite Hd.
    cbn [findTag tag_eqb find onClickOf exec exec1 paused].
    rewrite updateEffects_same. reflexivity. }
  split; [exact Hdot|].
  intros Hlt Hge path. rewrite Hdot.
  rewrite (step_click_toggle env w path
             (onClick_active_in_range env _ (shown_paused_status w Hd)
                                      Hlt Hge)).
  cbn [fst withPaused paused]. split; [reflexivity|].
  destruct (paused w) as [[|]|]; discriminate.
Qed.

Lemma paused_dot_click_resumes_directly_witness :
  dotClick sampleEnv (mounted (update "paused" half))
  = (mounted (update "paused" half),
     [{| action := "index/setPaused"; payload := Boolean false |}])
  /\ dotClick sampleEnv
              (withPaused (Some true) (mounted (update "indexing" (of_Z 1))))
     = (withPaused (Some true) (mounted (update "indexing" (of_Z 1))),
        [{| action := "index/setPaused"; payload := Boolean false |}]).
Proof.
  split.
  - exact (proj1 (paused_dot_click_resumes_directly
                    sampleEnv (mounted (update "paused" half)) eq_refl)).
  - exact (proj1 (paused_dot_click_resumes_directly
                    sampleEnv
                    (withPaused (Some true)
                                (mounted (update "indexing" (of_Z 1))))
                    eq_refl)).
Defined.

(** C6.  The fill of the progress bar is the clamp of [progress * 100] to
    the range from 0 to 100, for every progress (out of range, infinite
    or NaN, which stays NaN): 100 above 100, the value itself between 0
    and 100, 0 at or below 0.  For progress -0.2 the fill is 0, for 1.4 it
    is 100, and for 0.37 it is 37. *)
Theorem fill_is_clamped_percent :
  (forall u, fillPercentage u
             = Spec.clamp_0_100 (mul (progress u) (of_Z 100)))
  /\ (forall st, fillPercentage (update st (of_ratio (-2) 10)) = pos_zero)
  /\ (forall st, fillPercentage (update st (of_ratio 14 10)) = of_Z 100)
  /\ (forall st, fillPercentage (update st (of_ratio 37 100)) = of_Z 37).
Proof.
  split; [intros u; apply fill_clamp_number|].
  repeat split; intros st; vm_compute; reflexivity.
Qed.

(** C7.  In the Indexing and in the Paused display the percent shown is
    [Math.trunc(progress * 100)]: the integer part, towards zero, of the
    product, neither rounded nor clamped.  Progress 0.999 shows "99%"
    while the fill of the bar is 99.9, and progress 1.4 shows "140%" while
    the fill is 100. *)
Theorem percent_label_truncated
        (env : Env) (u : IndexingProgressUpdate) (p : option bool) (h : bool) :
  percent u = Math_trunc (mul (progress u) (of_Z 100))
  /\ (displayState u p = Indexing ->
      heading (render env u p h) = Some (toString (percent u) ++ "%")%string)
  /\ (displayState u p = Paused ->
      heading (render env u p h)
      = Some ("Indexing paused (" ++ toString (percent u) ++ "%)")%string)
  /\ (forall s m e,
        valid_binary prec emax (S754_finite s m e) = true ->
        exists num den,
          exact (S754_finite s m e) = Some (num, den) /\ 0 < den /\
          to_Z (Math_trunc (S754_finite s m e))
          = Some (Spec.truncated num den))
  /\ heading (render env (update "indexing" (of_ratio 999 1000)) None h)
     = Some "99%"
  /\ heading (render env (update "paused" (of_ratio 999 1000)) p h)
     = Some "Indexing paused (99%)"
  /\ completed (render env (update "indexing" (of_ratio 999 1000)) None h)
     = Some (of_ratio 999 10)
  /\ heading (render env (update "indexing" (of_ratio 14 10)) None h)
     = Some "140%"
  /\ completed (render env (update "indexing" (of_ratio 14 10)) None h)
     = Some (of_Z 100).
Proof.
  split; [reflexivity|].
  split; [apply heading_indexing|].
  split; [apply heading_paused|].
  split.
  { intros s m e Hv. apply trunc_quot. exact (valid_digits s m e Hv). }
  repeat split; vm_compute; reflexivity.
Qed.

Lemma percent_label_truncated_witness :
  heading (render sampleEnv (update "indexing" (of_ratio 999 1000))
                  (Some false) true)
  = Some (toString (of_Z 99) ++ "%")%string
  /\ heading (render sampleEnv (update "indexing" (of_ratio 999 1000))
                     (Some true) false)
     = Some ("Indexing paused (" ++ toString (of_Z 99) ++ "%)")%string
  /\ exists num den,
       exact (S754_finite true 7029837543348634 (-46)) = Some (num, den)
       /\ 0 < den
       /\ to_Z (Math_trunc (S754_finite true 7029837543348634 (-46)))
          = Some (Spec.truncated num den).
Proof.
  split; [|split].
  - destruct (percent_label_truncated
                sampleEnv (update "indexing" (of_ratio 999 1000))
                (Some false) true) as (_ & H & _).
    exact (H eq_refl).
  - destruct (percent_label_truncated
                sampleEnv (update "indexing" (of_ratio 999 1000))
                (Some true) false) as (_ & _ & H & _).
    exact (H eq_refl).
  - destruct (percent_label_truncated
                sampleEnv (update "indexing" (of_ratio 999 1000))
                None false) as (_ & _ & _ & H & _).
    exact (H true 7029837543348634%positive (-46) eq_refl).
Defined.

(** C8.  Within one mount the initialisation message is posted exactly
    once: it is the first message of the lifetime, posted by the mount,
    and no sequence of later events, renders included, posts it again.
    The effect that posts it has an empty dependency array and so never
    runs after a later render, while the variable [initialized] starts at
    [false] in every render. *)
Theorem initialized_posted_once
        (env : Env) (u : option IndexingProgressUpdate) (events : list Event) :
  snd (lifetime env u events) = initMessage :: snd (run env (initial u) events)
  /\ sent "index/indexingProgressBarInitialized" (snd (lifetime env u events))
     = [initMessage]
  /\ initializedEffect false
     = ([Post "index/indexingProgressBarInitialized" Undefined], true)
  /\ (forall p p',
        ~ In (Post "index/indexingProgressBarInitialized" Undefined)
             (updateEffects (useEffects p) (useEffects p'))).
Proof.
  unfold lifetime. rewrite mount_initial.
  pose proof (run_initialized env events (initial u) I) as Hr.
  destruct (run env (initial u) events) as [w out]. cbn [snd] in *.
  split; [reflexivity|]. split.
  - change ([initMessage] ++ out) with (initMessage :: out).
    unfold sent in *. cbn [filter]. change (named _ initMessage) with true.
    cbv iota. now rewrite Hr.
  - split; [reflexivity|].
    intros p p'. rewrite updateEffects_paused.
    destruct (same_deps _ _); [intros []|].
    destruct p' as [b|]; [|intros []]. intros [H|[]]. discriminate.
Qed.

(** C9 (as stated, it fails).  The display is not a function of the
    update, the pause intent and the hover flag alone: with the same three
    values, the tooltip of the Failed display differs between a JetBrains
    host with the transformers.js provider and another host. *)
Lemma display_depends_on_environment :
  ~ (forall (env1 env2 : Env) (u : IndexingProgressUpdate)
            (p : option bool) (h : bool),
        tooltipText (render env1 u p h) = tooltipText (render env2 u p h)
        /\ clickCmds [] (render env1 u p h)
           = clickCmds [] (render env2 u p h)).
Proof.
  intros H. destruct (H sampleEnv jetBrainsEnv corrupted None false) as [Ht _].
  vm_compute in Ht. discriminate.
Qed.

(** C9 (amended).  The display is a function of the update, the pause
    intent, the hover flag and the environment, each part of it reading
    this much and no more.  The state variant depends on the status and
    the pause intent only.  The heading, the line under the bar and the
    fill are the same in every environment.  A tooltip is rendered exactly
    when the tooltip portal exists and the display is Failed, Done or
    Disabled; given the portal, its text does not depend on the
    environment outside the Failed display, and in the Failed display it
    depends on whether the embeddings provider is the unsupported one (the
    JetBrains probe together with the provider).  The click action, at
    every place of the row and on the dot, does not depend on the
    environment unless the status is "failed", where it depends on the
    JetBrains probe only.  Two environments that agree on the JetBrains
    probe, on the unsupported provider, on the portal, on the font size
    and on the colour of the Disabled dot give the same tree. *)
Theorem display_determined
        (env1 env2 : Env) (u : IndexingProgressUpdate)
        (p : option bool) (h : bool) :
  (isJetBrains env1 = isJetBrains env2 ->
   unsupportedProvider env1 = unsupportedProvider env2 ->
   tooltipPortalDiv env1 = tooltipPortalDiv env2 ->
   getFontSize env1 = getFontSize env2 ->
   lightGray env1 = lightGray env2 ->
   render env1 u p h = render env2 u p h)
  /\ (forall u', status u' = status u -> displayState u' p = displayState u p)
  /\ heading (render env1 u p h) = heading (render env2 u p h)
  /\ info (render env1 u p h) = info (render env2 u p h)
  /\ completed (render env1 u p h) = completed (render env2 u p h)
  /\ (tooltipText (render env1 u p h) <> None
      <-> tooltipPortalDiv env1 = true
          /\ (displayState u p = Failed \/ displayState u p = Done
              \/ displayState u p = Disabled))
  /\ (tooltipPortalDiv env1 = tooltipPortalDiv env2 ->
      displayState u p <> Failed ->
      tooltipText (render env1 u p h) = tooltipText (render env2 u p h))
  /\ (tooltipPortalDiv env1 = tooltipPortalDiv env2 ->
      unsupportedProvider env1 = unsupportedProvider env2 ->
      tooltipText (render env1 u p h) = tooltipText (render env2 u p h))
  /\ (status u <> "failed" ->
      forall path,
        clickCmds path (render env1 u p h) = clickCmds path (render env2 u p h))
  /\ (isJetBrains env1 = isJetBrains env2 ->
      forall path,
        clickCmds path (render env1 u p h) = clickCmds path (render env2 u p h))
  /\ dotHandler (render env1 u p h) = dotHandler (render env2 u p h).
Proof.
  split; [|split; [|split; [|split; [|split; [|split; [|split;
    [|split; [|split; [|split]]]]]]]]].
  - intros Hj Hu Ht Hf Hl.
    unfold render, branch, tooltip, STATUS_COLORS.DISABLED.
    rewrite (onClick_env env1 env2 u Hj), Ht, Hf, Hl.
    rewrite (getIndexingErrMsg_unsupported env1 env2 _ Hu). reflexivity.
  - intros u' Hs. unfold displayState. rewrite Hs. reflexivity.
  - apply labels_independent_of_environment.
  - apply labels_independent_of_environment.
  - apply labels_independent_of_environment.
  - rewrite tooltipText_render.
    destruct (tooltipPortalDiv env1), (displayState u p); split;
      try (intros H; now contradiction H);
      try (intros [H1 H2]; try discriminate;
           destruct H2 as [H2|[H2|H2]]; discriminate);
      try (intros _; split; [reflexivity|]; auto);
      intros _; discriminate.
  - intros Ht Hd. rewrite !tooltipText_render, Ht.
    destruct (tooltipPortalDiv env2), (displayState u p);
      try reflexivity. now contradiction Hd.
  - intros Ht Hu. rewrite !tooltipText_render, Ht.
    rewrite (getIndexingErrMsg_unsupported env1 env2 _ Hu). reflexivity.
  - intros Hs path. rewrite !clickCmds_render.
    rewrite (onClick_not_failed env1 env2 u Hs). reflexivity.
  - intros Hj path. rewrite !clickCmds_render.
    rewrite (onClick_env env1 env2 u Hj). reflexivity.
  - rewrite !dotHandler_render. reflexivity.
Qed.

Lemma display_determined_witness :
  render sampleEnv corrupted None false
  = render otherProviderEnv corrupted None false
  /\ displayState (update "failed" half) None = displayState corrupted None
  /\ tooltipText (render jetBrainsEnv (update "done" half) None false)
     = tooltipText (render sampleEnv (update "done" half) None false)
  /\ tooltipText (render otherProviderEnv corrupted None false)
     = tooltipText (render sampleEnv corrupted None false)
  /\ clickCmds onBox (render jetBrainsEnv (update "indexing" half) None false)
     = clickCmds onBox (render sampleEnv (update "indexing" half) None false).
Proof.
  split; [|split; [|split; [|split]]].
  - destruct (display_determined sampleEnv otherProviderEnv corrupted
                None false) as (H & _).
    exact (H eq_refl eq_refl eq_refl eq_refl eq_refl).
  - destruct (display_determined sampleEnv otherProviderEnv corrupted
                None false) as (_ & H & _).
    exact (H (update "failed" half) eq_refl).
  - destruct (display_determined jetBrainsEnv sampleEnv (update "done" half)
                None false) as (_ & _ & _ & _ & _ & _ & H & _).
    refine (H eq_refl _). discriminate.
  - destruct (display_determined otherProviderEnv sampleEnv corrupted
                None false) as (_ & _ & _ & _ & _ & _ & _ & H & _).
    exact (H eq_refl eq_refl).
  - destruct (display_determined jetBrainsEnv sampleEnv
                (update "indexing" half) None false)
      as (_ & _ & _ & _ & _ & _ & _ & _ & H & _).
    refine (H _ onBox). discriminate.
Defined.

(** C10.  While the pause intent is unset the pause effect posts nothing:
    its body returns at once, a render whose pause intent is unset runs
    nothing of it whatever the render before, and a mount followed by any
    events that are not clicks (updates from the host, hovering, dialog
    buttons) leaves the pause intent unset and posts no index/setPaused
    at all. *)
Theorem no_setPaused_while_unset
        (env : Env) (u : option IndexingProgressUpdate) (events : list Event) :
  forallb (fun e => negb (isClick e)) events = true ->
  pausedEffect None = []
  /\ (forall prev, updateEffects (useEffects prev) (useEffects None) = [])
  /\ paused (fst (lifetime env u events)) = None
  /\ sent "index/setPaused" (snd (lifetime env u events)) = [].
Proof.
  intros Hall. split; [reflexivity|]. split.
  - intros prev. rewrite updateEffects_paused.
    destruct (same_deps _ _); reflexivity.
  - unfold lifetime. rewrite mount_initial.
    destruct (run_without_clicks env events Hall (initial u) I) as [Hp Ho].
    destruct (run env (initial u) events) as [w out]. cbn [fst snd] in *.
    split; [exact Hp|]. rewrite sent_app, Ho. reflexivity.
Qed.

Lemma no_setPaused_while_unset_witness :
  sent "index/setPaused"
       (snd (lifetime sampleEnv None
               [Render (Some (update "indexing" half)); MouseEnter onBox;
                Render (Some (update "paused" half)); MouseLeave onBox;
                Render (Some (update "done" (of_Z 1))); Dismiss])) = [].
Proof.
  destruct (no_setPaused_while_unset sampleEnv None
              [Render (Some (update "indexing" half)); MouseEnter onBox;
               Render (Some (update "paused" half)); MouseLeave onBox;
               Render (Some (update "done" (of_Z 1))); Dismiss] eq_refl)
    as (_ & _ & _ & H).
  exact H.
Defined.

(* ================================================================= *)
(** ** Further facts about the component *)

Module MoreFacts.
Import JsNumber Model NumberFacts RuntimeFacts Reading.
Local Open Scope list_scope.

(** *** Statuses and the row handler *)

Lemma displayState_inactive (u : IndexingProgressUpdate) (p : option bool) :
  active u = false ->
  displayState u p <> Paused /\ displayState u p <> Indexing.
Proof.
  unfold active, displayState. intros H. apply orb_false_elim in H.
  destruct H as [Hi Hp]. rewrite Hi, Hp, andb_false_r.
  destruct (status u === "failed"), (status u === "loading"),
    (status u === "done"), (status u === "disabled"); cbn; split; discriminate.
Qed.

Lemma subClick_inactive (u : IndexingProgressUpdate) (p : option bool)
      (path : list nat) :
  active u = false -> subClick (displayState u p) path = [].
Proof.
  intros H. destruct (displayState_inactive u p H) as [H1 H2].
  destruct (displayState u p); try reflexivity; congruence.
Qed.

Lemma onClick_inactive (env : Env) (u : IndexingProgressUpdate) :
  (status u === "failed") = false -> active u = false ->
  onClick env u = [Post "index/forceReIndex" Undefined].
Proof. unfold onClick, active. intros -> ->. reflexivity. Qed.

Lemma onClick_toggle_iff (env : Env) (u : IndexingProgressUpdate) :
  onClick env u = [SetPaused not_prev]
  <-> (status u === "failed") = false /\ active u = true /\ inRange u = true.
Proof.
  unfold onClick, active, inRange. split.
  - destruct (status u === "failed").
    + destruct (truthy (shouldClearIndexes u) && negb (isJetBrains env));
        discriminate.
    + destruct ((status u === "indexing") || (status u === "paused"));
        [|discriminate].
      destruct (lt (progress u) (of_Z 1) && ge (progress u) pos_zero);
        [auto|discriminate].
  - intros (-> & -> & ->). reflexivity.
Qed.

(** With a status that is neither failed nor active, a click anywhere
    posts forceReIndex and changes nothing. *)
Lemma inactive_click (env : Env) (w : World) (path : list nat) :
  (status (current w) === "failed") = false -> active (current w) = false ->
  step env w (Click path) = (w, [forceReIndexMessage]).
Proof.
  intros Hf Ha.
  rewrite (step_click_post env w path _ _ (onClick_inactive env _ Hf Ha)).
  unfold shown. rewrite (subClick_inactive _ _ path Ha). reflexivity.
Qed.

Lemma onClick_edge (env : Env) (u : IndexingProgressUpdate) :
  active u = true ->
  (progress u = NaN \/ progress u = Infinity \/ progress u = neg_Infinity ->
   onClick env u = [Post "index/forceReIndex" Undefined])
  /\ (progress u = pos_zero \/ progress u = neg_zero ->
      onClick env u = [SetPaused not_prev]).
Proof.
  intros Ha.
  assert ((status u === "failed") = false) as Hf.
  { unfold active in Ha. apply orb_prop in Ha.
    destruct Ha as [H|H]; apply String.eqb_eq in H; rewrite H; reflexivity. }
  split.
  - intros H. unfold onClick. unfold active in Ha. rewrite Hf, Ha.
    destruct H as [->|[->| ->]]; reflexivity.
  - intros H. apply onClick_toggle_iff. repeat split; try assumption.
    unfold inRange. destruct H as [->| ->]; reflexivity.
Qed.


Lemma subClick_posts (ds : DisplayState) (path : list nat) :
  posts (subClick ds path) = []
  \/ exists c, posts (subClick ds path) = [setPausedMessage c].
Proof.
  destruct ds; try (left; reflexivity);
    destruct path as [|[|i] [|[|j] r]];
    try (left; reflexivity); right; eexists; reflexivity.
Qed.


Lemma posts_subClick_clears (ds : DisplayState) (path : list nat) :
  existsb clears (posts (subClick ds path)) = false.
Proof.
  destruct (subClick_posts ds path) as [->|(c & ->)]; reflexivity.
Qed.

(** *** Hovering *)

Lemma quiet_forward (sel : Attr -> option Handler) (n : Node) (path : list nat) :
  forallb (fun a => match sel a with Some _ => false | None => true end)
          (attrsIn n) = true ->
  List.concat (along sel path n) = [].
Proof.
  intros Hq. apply concat_all_nil. intros h Hh.
  exact (along_quiet sel n path Hq h Hh).
Qed.

Lemma quiet_backward (sel : Attr -> option Handler) (n : Node) (path : list nat) :
  forallb (fun a => match sel a with Some _ => false | None => true end)
          (attrsIn n) = true ->
  List.concat (rev (along sel path n)) = [].
Proof.
  intros Hq. apply concat_all_nil. intros h Hh. rewrite <- in_rev in Hh.
  exact (along_quiet sel n path Hq h Hh).
Qed.

Lemma mouseEnter_render env u p h path :
  List.concat (along onMouseEnterOf path (render env u p h))
  = hoverCmds true (displayState u p) path.
Proof.
  unfold render.
  destruct path as [|[|i] rest].
  - cbn. destruct (displayState u p); reflexivity.
  - cbn [along nth_error opaque]. cbn [List.concat].
    change (handlerOf onMouseEnterOf _) with (@nil Cmd). cbn [app].
    unfold branch.
    destruct (displayState u p); cbn [hoverCmds];
      try (apply quiet_forward; unfold tooltip;
           destruct (tooltipPortalDiv env); reflexivity).
    destruct rest as [|[|[|j]] r]; try reflexivity;
      cbn [along nth_error opaque List.concat];
      change (handlerOf onMouseEnterOf _) with [SetHovered true].
    + destruct r; reflexivity.
    + rewrite quiet_forward; reflexivity.
    + destruct j; reflexivity.
  - cbn [along nth_error opaque]. destruct i; cbn; destruct (displayState u p);
      reflexivity.
Qed.

Lemma mouseLeave_render env u p h path :
  List.concat (rev (along onMouseLeaveOf path (render env u p h)))
  = hoverCmds false (displayState u p) path.
Proof.
  unfold render.
  destruct path as [|[|i] rest].
  - cbn. destruct (displayState u p); reflexivity.
  - cbn [along nth_error opaque]. rewrite concat_rev_cons.
    change (handlerOf onMouseLeaveOf _) with (@nil Cmd). rewrite app_nil_r.
    unfold branch.
    destruct (displayState u p); cbn [hoverCmds];
      try (apply quiet_backward; unfold tooltip;
           destruct (tooltipPortalDiv env); reflexivity).
    destruct rest as [|[|[|j]] r]; try reflexivity;
      cbn [along nth_error opaque]; rewrite concat_rev_cons;
      change (handlerOf onMouseLeaveOf _) with [SetHovered false].
    + destruct r; reflexivity.
    + rewrite quiet_backward; reflexivity.
    + destruct j; reflexivity.
  - cbn [along nth_error opaque]. destruct i; cbn; destruct (displayState u p);
      reflexivity.
Qed.

Lemma step_hover (env : Env) (w : World) (path : list nat) :
  step env w (MouseEnter path)
  = (fst (exec (hoverCmds true (shown w) path) w), [])
  /\ step env w (MouseLeave path)
     = (fst (exec (hoverCmds false (shown w) path) w), []).
Proof.
  unfold step, handle, view.
  rewrite mouseEnter_render, mouseLeave_render. fold (current w) (shown w).
  split; destruct (shown w); try (rewrite updateEffects_same; reflexivity);
    destruct path as [|[|i] r]; cbn [hoverCmds exec exec1 paused];
    rewrite updateEffects_same; reflexivity.
Qed.

(** *** The fill of the bar *)

Lemma shr_1_nonneg (r : shr_record) : 0 <= shr_m r -> 0 <= shr_m (shr_1 r).
Proof.
  destruct r as [m b s]. cbn [shr_m]. intros H. unfold shr_1.
  destruct m as [|[q|q|]|q]; cbn [shr_m]; lia.
Qed.

Lemma iter_pos_nonneg (n : positive) :
  forall r, 0 <= shr_m r -> 0 <= shr_m (iter_pos shr_1 n r).
Proof.
  induction n as [n IH|n IH|]; intros r H; cbn [iter_pos].
  - apply IH, IH, shr_1_nonneg, H.
  - apply IH, IH, H.
  - apply shr_1_nonneg, H.
Qed.

Lemma shr_fexp_nonneg (m e : Z) (l : location) :
  0 <= m -> 0 <= shr_m (fst (shr_fexp prec emax m e l)).
Proof.
  intros H. unfold shr_fexp, shr.
  assert (0 <= shr_m (shr_record_of_loc m l)) as H0
    by (destruct l as [|[ | | ]]; exact H).
  destruct (fexp prec emax (Zdigits2 m + e) - e) as [|n|n]; cbn [fst];
    try exact H0.
  apply iter_pos_nonneg, H0.
Qed.

Lemma round_nearest_even_nonneg (m : Z) (l : location) :
  0 <= m -> 0 <= round_nearest_even m l.
Proof.
  intros H. unfold round_nearest_even.
  destruct l as [|[ | | ]]; try destruct (Z.even m); lia.
Qed.

Lemma binary_round_aux_not_nan (s : bool) (m e : Z) (l : location) :
  0 <= m -> is_nan (binary_round_aux prec emax s m e l) = false.
Proof.
  intros H. unfold binary_round_aux.
  pose proof (shr_fexp_nonneg m e l H) as H1.
  destruct (shr_fexp prec emax m e l) as [mrs' e']. cbn [fst] in H1.
  pose proof (shr_fexp_nonneg _ e' loc_Exact
                (round_nearest_even_nonneg _ (loc_of_shr_record mrs') H1)) as H2.
  destruct (shr_fexp prec emax _ e' loc_Exact) as [mrs'' e''].
  cbn [fst] in H2.
  destruct (shr_m mrs'') as [|q|q]; try lia; try reflexivity.
  destruct (e'' <=? emax - prec); reflexivity.
Qed.

(** A product with 100 is NaN only when the other factor is. *)
Lemma mul_100_nan (x : number) : is_nan (mul x (of_Z 100)) = is_nan x.
Proof.
  destruct x as [s|s| |s m e]; try reflexivity.
  change (of_Z 100) with (S754_finite false 7036874417766400 (-46)).
  unfold mul, SFmul. cbn [is_nan]. apply binary_round_aux_not_nan. lia.
Qed.

Lemma clamp_bounds (x : number) :
  is_nan x = false ->
  is_nan (Spec.clamp_0_100 x) = false
  /\ ge (Spec.clamp_0_100 x) pos_zero = true
  /\ ge (of_Z 100) (Spec.clamp_0_100 x) = true
  /\ Spec.clamp_0_100 x <> neg_zero.
Proof.
  intros Hn. unfold Spec.clamp_0_100. rewrite Hn.
  destruct (lt (of_Z 100) x) eqn:H100; [repeat split; discriminate|].
  destruct (lt pos_zero x) eqn:H0; [|repeat split; discriminate].
  split; [exact Hn|]. split; [|split].
  - unfold ge, SFleb. unfold lt, SFltb in H0.
    destruct (SFcompare pos_zero x) as [[ | | ]|]; try discriminate.
    reflexivity.
  - unfold ge, SFleb. unfold lt, SFltb in H100.
    rewrite (compare_antisym (of_Z 100) x).
    destruct x as [s|s| |s m e]; try discriminate;
      destruct (SFcompare (of_Z 100) _) as [[ | | ]|] eqn:Hc;
      try discriminate; try reflexivity.
  - intros ->. discriminate.
Qed.

(** *** What one event, and a run of events, can do *)

(** What one event can do to a state whose dialog, if any, is the rebuild
    dialog: toggle the intent and post it last; or leave intent and
    analytics alone and post only setPaused and plain forceReIndex; or, on
    confirm, record the analytics event and post the rebuild request. *)
Lemma step_kinds (env : Env) (w : World) (e : Event) :
  quiet_dialog w ->
  quiet_dialog (fst (step env w e))
  /\ ((exists b pre,
          paused (fst (step env w e)) = Some b
          /\ captured (fst (step env w e)) = captured w
          /\ snd (step env w e) = pre ++ [setPausedMessage b]
          /\ (pre = [] \/ exists c, pre = [setPausedMessage c]))
      \/ (exists pre,
             paused (fst (step env w e)) = paused w
             /\ captured (fst (step env w e)) = captured w
             /\ snd (step env w e) = pre ++ [forceReIndexMessage]
             /\ (pre = [] \/ exists c, pre = [setPausedMessage c]))
      \/ (paused (fst (step env w e)) = paused w
          /\ captured (fst (step env w e)) = captured w
          /\ snd (step env w e) = [])
      \/ (paused (fst (step env w e)) = paused w
          /\ captured (fst (step env w e))
             = captured w ++ ["rebuild_index_clicked"%string]
          /\ snd (step env w e) = [rebuildMessage])).
Proof.
  intros Hq. split; [exact (proj1 (step_invariant env w e Hq))|].
  destruct e as [path|path|path|u| |].
  - destruct (onClick_cases env (current w)) as [H|[H|H]].
    + rewrite (step_click_toggle _ _ path H). left.
      exists (negb (truthy (paused w))), (posts (subClick (shown w) path)).
      repeat split. apply subClick_posts.
    + rewrite (step_click_post _ _ path _ _ H). right; left.
      exists (posts (subClick (shown w) path)).
      repeat split. apply subClick_posts.
    + rewrite (step_click_dialog _ _ path H).
      destruct (subClick_posts (shown w) path) as [E|(c & E)].
      * right; right; left. rewrite E. repeat split.
      * (* a sub-handler and the dialog: the Failed display has none *)
        exfalso. unfold onClick in H.
        destruct (status (current w) === "failed") eqn:Hf.
        -- apply String.eqb_eq in Hf.
           rewrite (shown_failed w Hf) in E. discriminate.
        -- destruct ((status (current w) === "indexing")
                     || (status (current w) === "paused"));
             [destruct (lt _ _ && ge _ _)|]; discriminate.
  - rewrite (proj1 (step_hover env w path)). right; right; left.
    destruct (shown w); try (repeat split);
      destruct path as [|[|i] r]; repeat split.
  - rewrite (proj2 (step_hover env w path)). right; right; left.
    destruct (shown w); try (repeat split);
      destruct path as [|[|i] r]; repeat split.
  - rewrite step_render. right; right; left. repeat split.
  - destruct (showDialog w) eqn:Hs; [destruct (dialogMessage w) as [d|] eqn:Hd|].
    + right; right; right. unfold quiet_dialog in Hq. rewrite Hd in Hq.
      unfold step, handle, dialogEvent. rewrite Hs, Hd, Hq.
      cbn [rebuildOnConfirm exec exec1 closeDialog paused app].
      rewrite updateEffects_same. repeat split.
    + rewrite (step_confirm_closed env w (or_intror Hd)).
      right; right; left. repeat split.
    + rewrite (step_confirm_closed env w (or_introl Hs)).
      right; right; left. repeat split.
  - right; right; left. destruct (step_dismiss env w) as (Ho & Hp & _).
    repeat split; try assumption.
    destruct (step_dismiss_state env w) as [->| ->]; reflexivity.
Qed.

Lemma step_summary (env : Env) (w : World) (e : Event) :
  quiet_dialog w ->
  quiet_dialog (fst (step env w e))
  /\ forallb wellFormed (snd (step env w e)) = true
  /\ captured (fst (step env w e))
     = captured w ++ rebuildEvents (snd (step env w e))
  /\ (forall b, paused (fst (step env w e)) = Some b ->
        paused w = Some b \/ In (setPausedMessage b) (snd (step env w e))).
Proof.
  intros Hq. destruct (step_kinds env w e Hq) as [Hq1 Hk].
  split; [exact Hq1|]. unfold rebuildEvents.
  destruct Hk as [(b & pre & Hp & Hc & Ho & Hpre)
                 |[(pre & Hp & Hc & Ho & Hpre)
                  |[(Hp & Hc & Ho)|(Hp & Hc & Ho)]]];
    rewrite Ho, Hc, Hp.
  - destruct Hpre as [->|(c & ->)]; cbn; rewrite app_nil_r;
      repeat split; intros b' Hb; injection Hb as <-; right;
      cbn; auto.
  - destruct Hpre as [->|(c & ->)]; cbn; rewrite app_nil_r;
      repeat split; intros b' Hb; left; exact Hb.
  - cbn. rewrite app_nil_r. repeat split. intros b' Hb; left; exact Hb.
  - cbn. repeat split. intros b' Hb; left; exact Hb.
Qed.

Lemma run_summary (env : Env) (events : list Event) :
  forall w, quiet_dialog w ->
    forallb wellFormed (snd (run env w events)) = true
    /\ captured (fst (run env w events))
       = captured w ++ rebuildEvents (snd (run env w events))
    /\ (forall b, paused (fst (run env w events)) = Some b ->
          paused w = Some b
          \/ In (setPausedMessage b) (snd (run env w events))).
Proof.
  induction events as [|e events IH]; intros w Hq.
  - cbn. rewrite app_nil_r. repeat split. intros b Hb. left. exact Hb.
  - cbn [run]. destruct (step_summary env w e Hq) as (Hq1 & Hw1 & Hc1 & Hp1).
    destruct (step env w e) as [w1 out1]. cbn [fst snd] in *.
    destruct (IH w1 Hq1) as (Hw2 & Hc2 & Hp2).
    destruct (run env w1 events) as [w2 out2]. cbn [fst snd] in *.
    split; [|split].
    + rewrite forallb_app, Hw1, Hw2. reflexivity.
    + rewrite Hc2, Hc1. unfold rebuildEvents.
      rewrite filter_app, map_app, app_assoc. reflexivity.
    + intros b Hb. destruct (Hp2 b Hb) as [H|H].
      * destruct (Hp1 b H) as [H'|H']; [left; exact H'|].
        right. apply in_or_app. left. exact H'.
      * right. apply in_or_app. right. exact H.
Qed.

Lemma onClick_jetbrains (env : Env) (u : IndexingProgressUpdate) :
  isJetBrains env = true ->
  onClick env u = [SetPaused not_prev]
  \/ onClick env u = [Post "index/forceReIndex" Undefined].
Proof.
  intros Hj. unfold onClick. rewrite Hj, andb_false_r.
  destruct (status u === "failed"); [auto|].
  destruct ((status u === "indexing") || (status u === "paused")); [|auto].
  destruct (lt (progress u) (of_Z 1) && ge (progress u) pos_zero); auto.
Qed.

Lemma step_jetbrains (env : Env) (w : World) (e : Event) :
  isJetBrains env = true -> noDialog w ->
  noDialog (fst (step env w e))
  /\ existsb clears (snd (step env w e)) = false.
Proof.
  intros Hj [Hs Hd]. unfold noDialog.
  destruct e as [path|path|path|u| |].
  - destruct (onClick_jetbrains env (current w) Hj) as [H|H].
    + rewrite (step_click_toggle _ _ path H). cbn [fst snd withPaused
        showDialog dialogMessage].
      rewrite existsb_app, posts_subClick_clears. repeat split; assumption.
    + rewrite (step_click_post _ _ path _ _ H). cbn [fst snd].
      rewrite existsb_app, posts_subClick_clears. repeat split; assumption.
  - destruct (step_mouse env w (MouseEnter path)) as (Ho & _ & Hsd & Hdm);
      [eauto|].
    rewrite Ho, Hsd, Hdm. repeat split; assumption.
  - destruct (step_mouse env w (MouseLeave path)) as (Ho & _ & Hsd & Hdm);
      [eauto|].
    rewrite Ho, Hsd, Hdm. repeat split; assumption.
  - rewrite step_render. repeat split; assumption.
  - rewrite (step_confirm_closed env w (or_introl Hs)).
    repeat split; assumption.
  - rewrite (proj1 (step_dismiss env w)).
    destruct (step_dismiss_state env w) as [->| ->]; repeat split; assumption.
Qed.

Lemma run_jetbrains (env : Env) (events : list Event) :
  isJetBrains env = true ->
  forall w, noDialog w ->
    noDialog (fst (run env w events))
    /\ existsb clears (snd (run env w events)) = false.
Proof.
  intros Hj. induction events as [|e events IH]; intros w Hn.
  - split; [exact Hn|reflexivity].
  - cbn [run]. destruct (step_jetbrains env w e Hj Hn) as [Hn1 Hc1].
    destruct (step env w e) as [w1 out1]. cbn [fst snd] in *.
    destruct (IH w1 Hn1) as [Hn2 Hc2].
    destruct (run env w1 events) as [w2 out2]. cbn [fst snd] in *.
    split; [exact Hn2|]. rewrite existsb_app, Hc1, Hc2. reflexivity.
Qed.

End MoreFacts.

(* ================================================================= *)
(** ** Further properties of the component *)

Import Reading MoreFacts.

(** X1.  With any status other than "failed", "indexing" and "paused"
    ("loading", "done", "disabled", or a status the component does not
    know), a click anywhere in the row posts forceReIndex with no payload,
    once, and changes nothing in the state. *)
Theorem other_status_click_forces_reindex
        (env : Env) (w : World) (path : list nat) :
  status (current w) <> "failed" ->
  status (current w) <> "indexing" ->
  status (current w) <> "paused" ->
  step env w (Click path) = (w, [forceReIndexMessage]).
Proof.
  intros Hf Hi Hp.
  apply String.eqb_neq in Hf, Hi, Hp.
  apply inactive_click; [exact Hf|].
  unfold active. rewrite Hi, Hp. reflexivity.
Qed.

Lemma other_status_click_forces_reindex_witness :
  step sampleEnv (mounted (update "done" (of_Z 1))) (Click onDot)
  = (mounted (update "done" (of_Z 1)), [forceReIndexMessage])
  /\ step sampleEnv (mounted (update "canceled" half)) (Click [])
     = (mounted (update "canceled" half), [forceReIndexMessage]).
Proof.
  split.
  - apply (other_status_click_forces_reindex
             sampleEnv (mounted (update "done" (of_Z 1))) onDot);
      discriminate.
  - apply (other_status_click_forces_reindex
             sampleEnv (mounted (update "canceled" half)) []);
      discriminate.
Defined.

(** X2.  With no update passed, the component works on the default
    update: status "loading", progress 0, empty description, no
    [shouldClearIndexes].  The mount posts the initialisation message
    only, the display is Loading with the heading "Initializing", without
    tooltip or progress bar, the fill and the percent computed from the
    default are 0, a click posts forceReIndex with no payload, and the
    first update passed replaces the default. *)
Theorem no_update_shows_loading
        (env : Env) (p : option bool) (h : bool) (path : list nat) :
  indexingState_of None
  = {| progress := pos_zero; desc := ""; shouldClearIndexes := None;
       status := "loading" |}
  /\ (forall u, indexingState_of (Some u) = u)
  /\ fillPercentage (indexingState_of None) = pos_zero
  /\ percent (indexingState_of None) = pos_zero
  /\ textContent (render env (indexingState_of None) p h) = "Initializing"%string
  /\ lifetime env None [] = (initial None, [initMessage])
  /\ displayState (indexingState_of None) p = Loading
  /\ heading (render env (indexingState_of None) p h) = Some "Initializing"%string
  /\ tooltipText (render env (indexingState_of None) p h) = None
  /\ completed (render env (indexingState_of None) p h) = None
  /\ step env (initial None) (Click path)
     = (initial None, [forceReIndexMessage])
  /\ (forall u, current (fst (step env (initial None) (Render (Some u)))) = u).
Proof.
  repeat split; try (intros; reflexivity).
  apply inactive_click; reflexivity.
Qed.

(** X3.  The edges of the progress test of the row handler, with status
    "indexing" or "paused": a progress that is NaN or infinite is out of
    range, so the click posts forceReIndex once and leaves the pause
    intent; a progress of +0 or -0 is in range, so the click negates the
    pause intent and posts no forceReIndex. *)
Theorem edge_progress_click (env : Env) (w : World) (path : list nat) :
  status (current w) = "indexing" \/ status (current w) = "paused" ->
  (progress (current w) = NaN \/ progress (current w) = Infinity
   \/ progress (current w) = neg_Infinity ->
   paused (fst (step env w (Click path))) = paused w
   /\ sent "index/forceReIndex" (snd (step env w (Click path)))
      = [forceReIndexMessage])
  /\ (progress (current w) = pos_zero \/ progress (current w) = neg_zero ->
      paused (fst (step env w (Click path))) = Some (negb (truthy (paused w)))
      /\ sent "index/forceReIndex" (snd (step env w (Click path))) = []).
Proof.
  intros Hs.
  assert (active (current w) = true) as Ha
    by (unfold active; destruct Hs as [-> | ->]; reflexivity).
  destruct (onClick_edge env (current w) Ha) as [Hbad Hzero]. split.
  - intros H. rewrite (step_click_post env w path _ _ (Hbad H)).
    cbn [fst snd]. split; [reflexivity|].
    rewrite sent_app, (proj1 (subClick_setPaused _ _)). reflexivity.
  - intros H. rewrite (step_click_toggle env w path (Hzero H)).
    cbn [fst snd]. split; [reflexivity|].
    rewrite sent_app, (proj1 (subClick_setPaused _ _)). reflexivity.
Qed.

Lemma edge_progress_click_witness :
  sent "index/forceReIndex"
       (snd (step sampleEnv (mounted (update "indexing" NaN)) (Click onBox)))
  = [forceReIndexMessage]
  /\ paused (fst (step sampleEnv (mounted (update "paused" neg_zero))
                       (Click [])))
     = Some true.
Proof.
  split.
  - destruct (edge_progress_click sampleEnv (mounted (update "indexing" NaN))
                onBox (or_introl eq_refl)) as [H _].
    exact (proj2 (H (or_introl eq_refl))).
  - destruct (edge_progress_click sampleEnv (mounted (update "paused" neg_zero))
                [] (or_intror eq_refl)) as [_ H].
    exact (proj1 (H (or_intror eq_refl))).
Defined.

(** X4.  The display by status.  Paused is shown exactly when the status
    is "paused" (whatever the pause intent) or the status is "indexing"
    and the intent is true; Indexing exactly when the status is "indexing"
    and the intent is not true; Loading exactly for the status "loading";
    nothing exactly for a status outside the six known ones, and then the
    row is empty but still clickable, with forceReIndex as its action. *)
Theorem display_by_status (env : Env) (u : IndexingProgressUpdate)
        (p : option bool) (h : bool) :
  (displayState u p = Paused
   <-> status u = "paused" \/ (status u = "indexing" /\ p = Some true))
  /\ (displayState u p = Indexing
      <-> status u = "indexing" /\ p <> Some true)
  /\ (displayState u p = Loading <-> status u = "loading")
  /\ (displayState u p = Nothing <-> knownStatus (status u) = false)
  /\ (knownStatus (status u) = false ->
      render env u p h
      = Element div [OnClick [Post "index/forceReIndex" Undefined];
                     ClassName "cursor-pointer"] [Null]).
Proof.
  assert (forall s t, (s === t) = true <-> s = t) as E
    by (intros; apply String.eqb_eq).
  unfold knownStatus, render, branch, onClick, displayState.
  destruct (status u === "failed") eqn:Hf;
    [apply E in Hf; rewrite Hf; cbn;
     repeat split; intros; try discriminate; try tauto;
     repeat match goal with H : _ \/ _ |- _ => destruct H
            | H : _ /\ _ |- _ => destruct H end; discriminate|].
  destruct (status u === "loading") eqn:Hl;
    [apply E in Hl; rewrite Hl; cbn;
     repeat split; intros; try discriminate; try tauto;
     repeat match goal with H : _ \/ _ |- _ => destruct H
            | H : _ /\ _ |- _ => destruct H end; discriminate|].
  destruct (status u === "done") eqn:Hd;
    [apply E in Hd; rewrite Hd; cbn;
     repeat split; intros; try discriminate; try tauto;
     repeat match goal with H : _ \/ _ |- _ => destruct H
            | H : _ /\ _ |- _ => destruct H end; discriminate|].
  destruct (status u === "disabled") eqn:Hdi;
    [apply E in Hdi; rewrite Hdi; cbn;
     repeat split; intros; try discriminate; try tauto;
     repeat match goal with H : _ \/ _ |- _ => destruct H
            | H : _ /\ _ |- _ => destruct H end; discriminate|].
  destruct (status u === "paused") eqn:Hp;
    [apply E in Hp; rewrite Hp; cbn;
     repeat split; intros; try discriminate; try tauto;
     repeat match goal with H : _ \/ _ |- _ => destruct H
            | H : _ /\ _ |- _ => destruct H end; discriminate|].
  destruct (status u === "indexing") eqn:Hi.
  - apply E in Hi. rewrite Hi.
    destruct p as [[|]|]; cbn; repeat split; intros; try discriminate;
      try tauto; try congruence;
      repeat match goal with H : _ \/ _ |- _ => destruct H
             | H : _ /\ _ |- _ => destruct H end;
      try discriminate; try congruence; auto.
  - apply String.eqb_neq in Hf, Hl, Hd, Hdi, Hp, Hi.
    rewrite andb_false_r. cbn.
    repeat split; intros; try discriminate; try tauto; try congruence;
      repeat match goal with H : _ \/ _ |- _ => destruct H
             | H : _ /\ _ |- _ => destruct H end;
      try discriminate; try congruence.
Qed.

(** X5.  Hovering.  In the Indexing display, the pointer entering the
    box sets [hovered] and the line under the bar reads "Click to pause";
    the pointer leaving resets it and the line shows the description.  In
    every other display the pointer changes nothing and the tree does not
    depend on [hovered].  Hovering never posts a message. *)
Theorem hovering_shows_hint (env : Env) (w : World) (path : list nat) :
  (shown w = Indexing ->
   step env w (MouseEnter (O :: path)) = (withHovered true w, [])
   /\ step env w (MouseLeave (O :: path)) = (withHovered false w, [])
   /\ info (view env (withHovered true w)) = Some "Click to pause"
   /\ info (view env (withHovered false w)) = Some (desc (current w)))
  /\ (shown w <> Indexing ->
      step env w (MouseEnter path) = (w, [])
      /\ step env w (MouseLeave path) = (w, [])
      /\ view env (withHovered true w) = view env (withHovered false w)).
Proof.
  destruct (step_hover env w path) as [He Hl].
  destruct (step_hover env w (O :: path)) as [He0 Hl0].
  split.
  - intros Hs. rewrite He0, Hl0, Hs.
    unfold info, textOf, view, render, branch. cbn [withHovered paused hovered indexingStateProp].
    fold (current w). unfold shown in Hs. rewrite Hs.
    repeat split.
  - intros Hs. rewrite He, Hl.
    unfold view, render, branch.
    cbn [withHovered paused hovered indexingStateProp].
    fold (current w). unfold shown in *.
    destruct (displayState (current w) (paused w)) eqn:Hd;
      try contradiction; repeat split.
Qed.

Lemma hovering_shows_hint_witness :
  step sampleEnv (mounted (update "indexing" half)) (MouseEnter onBox)
  = (withHovered true (mounted (update "indexing" half)), [])
  /\ step sampleEnv (mounted (update "done" half)) (MouseEnter onBox)
     = (mounted (update "done" half), []).
Proof.
  split.
  - destruct (hovering_shows_hint sampleEnv (mounted (update "indexing" half)) [])
      as [H _].
    exact (proj1 (H eq_refl)).
  - destruct (hovering_shows_hint sampleEnv (mounted (update "done" half)) onBox)
      as [_ H].
    refine (proj1 (H _)). discriminate.
Defined.

(** X6.  Tooltips.  Without the portal element no display has a tooltip.
    With it, the Failed display shows the result of [getIndexingErrMsg] on
    the description, the Done display its fixed text, the Disabled display
    the description, and the other displays none.  [getIndexingErrMsg]
    returns the description unchanged unless the host is JetBrains and the
    provider is the transformers.js one, and in that case its result does
    not depend on the description. *)
Theorem tooltips_need_portal (env : Env) (u : IndexingProgressUpdate)
        (p : option bool) (h : bool) :
  (tooltipPortalDiv env = false -> tooltipText (render env u p h) = None)
  /\ (tooltipPortalDiv env = true ->
      tooltipText (render env u p h)
      = match displayState u p with
        | Failed => Some (getIndexingErrMsg env (desc u))
        | Done => Some "Index up to dateClick to force re-indexing"%string
        | Disabled => Some (desc u)
        | _ => None
        end)
  /\ (unsupportedProvider env = false ->
      getIndexingErrMsg env (desc u) = desc u)
  /\ (unsupportedProvider env = true ->
      forall msg, getIndexingErrMsg env msg = getIndexingErrMsg env ""%string).
Proof.
  unfold tooltipText, textOf, render, branch, tooltip. repeat split.
  - intros ->. destruct (displayState u p); reflexivity.
  - intros ->. destruct (displayState u p); reflexivity.
  - unfold getIndexingErrMsg. fold (unsupportedProvider env). intros ->.
    reflexivity.
  - unfold getIndexingErrMsg. fold (unsupportedProvider env). intros -> msg.
    reflexivity.
Qed.

Lemma tooltips_need_portal_witness :
  tooltipText (render sampleEnv corrupted None false)
  = Some "Index corrupted"%string
  /\ getIndexingErrMsg otherProviderEnv "Indexing files"%string
     = "Indexing files"%string.
Proof.
  split.
  - destruct (tooltips_need_portal sampleEnv corrupted None false)
      as (_ & H & _). exact (H eq_refl).
  - destruct (tooltips_need_portal otherProviderEnv
                (update "failed" half) None false) as (_ & _ & H & _).
    exact (H eq_refl).
Defined.

(** X7.  The pause intent survives the updates of the host: updates post
    nothing and leave the intent, so after an intent of true a "done"
    update shows Done and a later "indexing" update shows Paused at
    once. *)
Theorem pause_intent_survives_updates
        (env : Env) (w : World) (u1 u2 : IndexingProgressUpdate) :
  paused w = Some true ->
  status u1 = "done" -> status u2 = "indexing" ->
  run env w [Render (Some u1); Render (Some u2)]
  = (withProp (Some u2) w, [])
  /\ shown (fst (step env w (Render (Some u1)))) = Done
  /\ shown (withProp (Some u2) w) = Paused.
Proof.
  intros Hp H1 H2. cbn [run]. rewrite !step_render. repeat split.
  - unfold shown, current, displayState. cbn. rewrite H1. reflexivity.
  - unfold shown, current, displayState. cbn. rewrite H2, Hp. reflexivity.
Qed.

Lemma pause_intent_survives_updates_witness :
  shown (fst (run sampleEnv
                (withPaused (Some true) (mounted (update "indexing" half)))
                [Render (Some (update "done" (of_Z 1)));
                 Render (Some (update "indexing" pos_zero))]))
  = Paused.
Proof.
  destruct (pause_intent_survives_updates sampleEnv
              (withPaused (Some true) (mounted (update "indexing" half)))
              (update "done" (of_Z 1)) (update "indexing" pos_zero)
              eq_refl eq_refl eq_refl) as (H & _ & H').
  rewrite H. exact H'.
Defined.







(** X11.  A message asking to clear the index is posted by no event
    other than the confirmation of an open dialog. *)
Theorem clearing_only_on_confirm (env : Env) (w : World) (e : Event) :
  existsb clears (snd (step env w e)) = true ->
  e = Confirm /\ showDialog w = true /\ dialogMessage w <> None.
Proof.
  destruct e as [path|path|path|u| |].
  - destruct (step_click_cases env w path) as (w1 & m & -> & Hc).
    cbn [snd]. rewrite existsb_app, posts_subClick_clears.
    destruct Hc as [(_ & ->)|[(_ & ->)|(_ & ->)]]; discriminate.
  - rewrite (proj1 (step_hover env w path)). discriminate.
  - rewrite (proj2 (step_hover env w path)). discriminate.
  - rewrite step_render. discriminate.
  - destruct (showDialog w) eqn:Hs; [destruct (dialogMessage w) eqn:Hd|].
    + intros _. repeat split. discriminate.
    + rewrite (step_confirm_closed env w (or_intror Hd)). discriminate.
    + rewrite (step_confirm_closed env w (or_introl Hs)). discriminate.
  - rewrite (proj1 (step_dismiss env w)). discriminate.
Qed.

Lemma clearing_only_on_confirm_witness :
  showDialog (withDialog rebuildDialog (mounted corrupted)) = true.
Proof.
  exact (proj1 (proj2 (clearing_only_on_confirm
                         sampleEnv
                         (withDialog rebuildDialog (mounted corrupted))
                         Confirm eq_refl))).
Defined.

(** X12.  For every progress that is not NaN, infinities included, the
    fill of the bar is a number from 0 to 100, bounds included, and never
    the negative zero. *)
Theorem fill_within_bounds (u : IndexingProgressUpdate) :
  is_nan (progress u) = false ->
  is_nan (fillPercentage u) = false
  /\ ge (fillPercentage u) pos_zero = true
  /\ ge (of_Z 100) (fillPercentage u) = true
  /\ fillPercentage u <> neg_zero.
Proof.
  intros Hn. unfold fillPercentage. rewrite fill_clamp_number.
  apply clamp_bounds. rewrite mul_100_nan. exact Hn.
Qed.

Lemma fill_within_bounds_witness :
  ge (fillPercentage (update "indexing" neg_Infinity)) pos_zero = true
  /\ ge (of_Z 100) (fillPercentage (update "indexing" Infinity)) = true.
Proof.
  split.
  - exact (proj1 (proj2 (fill_within_bounds
                           (update "indexing" neg_Infinity) eq_refl))).
  - exact (proj1 (proj2 (proj2 (fill_within_bounds
                                  (update "indexing" Infinity) eq_refl)))).
Defined.

(** X13.  A click on the Indexing display with a progress out of range
    (1 or more, negative, NaN) posts setPaused(true) from the box and then
    forceReIndex with no payload from the row, and leaves the state as it
    is. *)
Theorem indexing_click_out_of_range
        (env : Env) (w : World) (path : list nat) :
  status (current w) = "indexing" -> truthy (paused w) = false ->
  inRange (current w) = false ->
  step env w (Click (O :: path))
  = (w, [setPausedMessage true; forceReIndexMessage]).
Proof.
  intros Hs Hp Hr.
  rewrite (step_click_post env w _ _ _
             (onClick_active_out_of_range env _ (or_introl Hs) Hr)).
  rewrite (shown_indexing w Hs Hp). reflexivity.
Qed.

Lemma indexing_click_out_of_range_witness :
  step sampleEnv (mounted (update "indexing" (of_Z 1))) (Click onBox)
  = (mounted (update "indexing" (of_Z 1)),
     [setPausedMessage true; forceReIndexMessage]).
Proof.
  exact (indexing_click_out_of_range
           sampleEnv (mounted (update "indexing" (of_Z 1))) []
           eq_refl eq_refl eq_refl).
Defined.

(** X14.  Whenever the pause intent is set, after any events since the
    mount, setPaused with that value is among the messages posted. *)
Theorem intent_was_posted
        (env : Env) (u : option IndexingProgressUpdate) (events : list Event)
        (b : bool) :
  paused (fst (lifetime env u events)) = Some b ->
  In (setPausedMessage b) (snd (lifetime env u events)).
Proof.
  unfold lifetime. rewrite mount_initial.
  destruct (run_summary env events (initial u) I) as (_ & _ & Hp).
  destruct (run env (initial u) events) as [w out]. cbn [fst snd] in *.
  intros Hb. destruct (Hp b Hb) as [H|H]; [discriminate|].
  apply in_or_app. right. exact H.
Qed.

Lemma intent_was_posted_witness :
  In (setPausedMessage true)
     (snd (lifetime sampleEnv (Some (update "indexing" half))
                    [Click onBox; Render (Some (update "paused" half))])).
Proof.
  exact (intent_was_posted sampleEnv (Some (update "indexing" half))
           [Click onBox; Render (Some (update "paused" half))] true eq_refl).
Defined.

(** X15.  Every message posted during a lifetime is one of the three of
    the component with a payload of its kind: the initialisation without
    payload, setPaused with a boolean, forceReIndex without payload or
    with [{shouldClearIndexes: true}]. *)
Theorem messages_are_well_formed
        (env : Env) (u : option IndexingProgressUpdate) (events : list Event) :
  forallb wellFormed (snd (lifetime env u events)) = true.
Proof.
  unfold lifetime. rewrite mount_initial.
  destruct (run_summary env events (initial u) I) as (Hw & _).
  destruct (run env (initial u) events) as [w out]. cbn [snd] in *.
  rewrite forallb_app, Hw. reflexivity.
Qed.

(** X16.  Where a click lands matters only below a sub-element handler:
    outside the Paused and Indexing displays every click does what a click
    on the row does; in the Paused display so does every click that is
    not on the dot; in the Indexing display every click in the box does
    the same. *)
Theorem click_target_matters_only_below_handlers
        (env : Env) (w : World) (path : list nat) :
  (shown w <> Paused -> shown w <> Indexing ->
   step env w (Click path) = step env w (Click []))
  /\ (shown w = Paused -> (forall r, path <> O :: O :: r) ->
      step env w (Click path) = step env w (Click []))
  /\ (shown w = Indexing ->
      step env w (Click (O :: path)) = step env w (Click [O])).
Proof.
  rewrite !step_click. cbv zeta. split; [|split].
  - intros Hp Hi. destruct (shown w); try reflexivity; contradiction.
  - intros -> _. reflexivity.
  - intros ->. reflexivity.
Qed.

Lemma click_target_matters_only_below_handlers_witness :
  step sampleEnv (mounted corrupted) (Click onDot)
  = step sampleEnv (mounted corrupted) (Click [])
  /\ step sampleEnv (mounted (update "indexing" half)) (Click onDot)
     = step sampleEnv (mounted (update "indexing" half)) (Click [O]).
Proof.
  split.
  - destruct (click_target_matters_only_below_handlers
                sampleEnv (mounted corrupted) onDot) as (H & _).
    apply H; discriminate.
  - destruct (click_target_matters_only_below_handlers
                sampleEnv (mounted (update "indexing" half)) [O])
      as (_ & _ & H).
    exact (H eq_refl).
Defined.

(** X17.  The status dot: it blinks exactly in the Loading and Indexing
    displays, it has a click handler exactly in the Paused display, it is
    absent exactly when nothing is displayed, and its colour is the entry
    of STATUS_COLORS for the display. *)
Theorem status_dot_by_display (env : Env) (u : IndexingProgressUpdate)
        (p : option bool) (h : bool) :
  (blinks (render env u p h) = true
   <-> displayState u p = Loading \/ displayState u p = Indexing)
  /\ (dotClickable (render env u p h) = true <-> displayState u p = Paused)
  /\ (dot (render env u p h) = None <-> displayState u p = Nothing)
  /\ dotColor (render env u p h)
     = match displayState u p with
       | Failed => Some STATUS_COLORS.FAILED
       | Loading => Some STATUS_COLORS.LOADING
       | Done => Some STATUS_COLORS.DONE
       | Disabled => Some (STATUS_COLORS.DISABLED env)
       | Paused => Some STATUS_COLORS.PAUSED
       | Indexing => Some STATUS_COLORS.INDEXING
       | Nothing => None
       end.
Proof.
  unfold blinks, dotClickable, dotColor, dot, render, branch.
  destruct (displayState u p); cbn;
    repeat split; intros; try discriminate; try tauto; auto;
    repeat match goal with H : _ \/ _ |- _ => destruct H end;
    discriminate.
Qed.

(** X18.  The analytics events recorded during a lifetime are one
    "rebuild_index_clicked" per message asking to clear the index, and
    nothing else. *)
Theorem analytics_match_rebuild_requests
        (env : Env) (u : option IndexingProgressUpdate) (events : list Event) :
  captured (fst (lifetime env u events))
  = map (fun _ => "rebuild_index_clicked"%string)
        (filter clears (snd (lifetime env u events))).
Proof.
  unfold lifetime. rewrite mount_initial.
  destruct (run_summary env events (initial u) I) as (_ & Hc & _).
  destruct (run env (initial u) events) as [w out]. cbn [fst snd] in *.
  rewrite Hc. reflexivity.
Qed.

(** X19.  What the displays hold: the fixed headings of Failed, Done and
    Loading; no heading for Disabled and for nothing; a progress bar and a
    line under it exactly in the Indexing display, the bar filled to
    [fillPercentage]. *)
Theorem contents_by_display (env : Env) (u : IndexingProgressUpdate)
        (p : option bool) (h : bool) :
  (displayState u p = Failed ->
   heading (render env u p h) = Some "Indexing error - click to retry"%string)
  /\ (displayState u p = Done ->
      heading (render env u p h) = Some "Index up to date"%string)
  /\ (displayState u p = Loading ->
      heading (render env u p h) = Some "Initializing"%string)
  /\ (displayState u p = Disabled \/ displayState u p = Nothing ->
      heading (render env u p h) = None)
  /\ (completed (render env u p h) <> None <-> displayState u p = Indexing)
  /\ (info (render env u p h) <> None <-> displayState u p = Indexing)
  /\ (displayState u p = Indexing ->
      completed (render env u p h) = Some (fillPercentage u)
      /\ info (render env u p h)
         = Some (if h then "Click to pause"%string else desc u)).
Proof.
  unfold heading, info, completed, textOf, render, branch, tooltip.
  destruct (displayState u p), (tooltipPortalDiv env); cbn;
    repeat split; intros; try discriminate; try tauto; try congruence;
    repeat match goal with H : _ \/ _ |- _ => destruct H end;
    try discriminate; try congruence.
Qed.

Lemma contents_by_display_witness :
  heading (render sampleEnv corrupted None false)
  = Some "Indexing error - click to retry"%string
  /\ completed (render sampleEnv (update "indexing" half) None true)
     = Some (fillPercentage (update "indexing" half)).
Proof.
  split.
  - destruct (contents_by_display sampleEnv corrupted None false) as (H & _).
    exact (H eq_refl).
  - destruct (contents_by_display sampleEnv (update "indexing" half) None true)
      as (_ & _ & _ & _ & _ & _ & H).
    exact (proj1 (H eq_refl)).
Defined.



(** X21.  Clicking the Failed display of a corrupted index twice is the
    same as clicking it once: the rebuild dialog is open and nothing was
    posted. *)
Theorem failed_clicks_are_idempotent
        (env : Env) (w : World) (path1 path2 : list nat) :
  status (current w) = "failed" ->
  truthy (shouldClearIndexes (current w)) = true -> isJetBrains env = false ->
  run env w [Click path1; Click path2] = step env w (Click path1)
  /\ step env w (Click path1) = (withDialog rebuildDialog w, []).
Proof.
  intros Hs Hc Hj.
  pose proof (onClick_failed_dialog env _ Hs Hc Hj) as Hk.
  cbn [run]. rewrite (step_click_dialog env w path1 Hk).
  rewrite (step_click_dialog env (withDialog rebuildDialog w) path2 Hk).
  unfold shown. cbn [withDialog paused]. fold (shown w).
  change (current (withDialog rebuildDialog w)) with (current w).
  fold (shown w). rewrite (shown_failed w Hs). split; reflexivity.
Qed.

Lemma failed_clicks_are_idempotent_witness :
  run sampleEnv (mounted corrupted) [Click onDot; Click []]
  = (withDialog rebuildDialog (mounted corrupted), []).
Proof.
  destruct (failed_clicks_are_idempotent
              sampleEnv (mounted corrupted) onDot []
              eq_refl eq_refl eq_refl) as [H1 H2].
  rewrite H1. exact H2.
Defined.

(** X22.  Under JetBrains no dialog is ever opened, no message asking to
    clear the index is ever posted and no analytics event is recorded,
    whatever the events. *)
Theorem jetbrains_never_rebuilds
        (env : Env) (u : option IndexingProgressUpdate) (events : list Event) :
  isJetBrains env = true ->
  showDialog (fst (lifetime env u events)) = false
  /\ dialogMessage (fst (lifetime env u events)) = None
  /\ existsb clears (snd (lifetime env u events)) = false
  /\ captured (fst (lifetime env u events)) = [].
Proof.
  intros Hj. unfold lifetime. rewrite mount_initial.
  destruct (run_jetbrains env events Hj (initial u) (conj eq_refl eq_refl))
    as [[Hs Hd] Hc].
  destruct (run_summary env events (initial u) I) as (_ & Hcap & _).
  destruct (run env (initial u) events) as [w out]. cbn [fst snd] in *.
  repeat split; try assumption.
  rewrite Hcap. unfold rebuildEvents. cbn [captured initial app].
  clear -Hc. induction out as [|m out IH]; [reflexivity|].
  cbn [existsb] in Hc. apply orb_false_elim in Hc. destruct Hc as [Hm Ho].
  cbn [filter]. rewrite Hm. exact (IH Ho).
Qed.

Lemma jetbrains_never_rebuilds_witness :
  showDialog (fst (lifetime jetBrainsEnv (Some corrupted)
                            [Click onDot; Confirm; Click []]))
  = false.
Proof.
  exact (proj1 (jetbrains_never_rebuilds jetBrainsEnv (Some corrupted)
                  [Click onDot; Confirm; Click []] eq_refl)).
Defined.



Lemma display_by_status_witness :
  displayState (update "indexing" half) (Some true) = Paused
  /\ displayState (update "paused" half) (Some false) = Paused
  /\ displayState (update "canceled" half) None = Nothing.
Proof.
  split; [|split].
  - destruct (display_by_status sampleEnv (update "indexing" half)
                (Some true) false) as (H & _).
    exact (proj2 H (or_intror (conj eq_refl eq_refl))).
  - destruct (display_by_status sampleEnv (update "paused" half)
                (Some false) false) as (H & _).
    exact (proj2 H (or_introl eq_refl)).
  - destruct (display_by_status sampleEnv (update "canceled" half)
                None false) as (_ & _ & _ & H & _).
    exact (proj2 H eq_refl).
Defined.

Lemma status_dot_by_display_witness :
  blinks (render sampleEnv (update "loading" pos_zero) None false) = true
  /\ dotClickable (render sampleEnv (update "paused" half) None false) = true.
Proof.
  split.
  - destruct (status_dot_by_display sampleEnv (update "loading" pos_zero)
                None false) as (H & _).
    exact (proj2 H (or_introl eq_refl)).
  - destruct (status_dot_by_display sampleEnv (update "paused" half)
                None false) as (_ & H & _).
    exact (proj2 H eq_refl).
Defined.
